(** * Observability sandbox: the instrumented [/work] request pipeline

    A shallow embedding of the two Go services of the repository
    ([src/app/main.go], the instrumented variant, and the plain variant
    that only sleeps and prints) together with the properties of their
    request handlers.

    The handlers are sequential programs that talk to collaborators: the
    pseudo-random source, the clock, the tracer, the structured logger,
    the Prometheus histogram and the HTTP response writer.  A handler is
    embedded as a computation in a state-and-panic monad whose state holds
    the random source, the clock and the ordered list of collaborator
    calls made so far; the collaborators' own states (response, log,
    histogram, open spans) are obtained by replaying that list. *)

From Stdlib Require Import ZArith QArith Qabs Lia List Bool Ascii String.
From stdpp Require Import base strings list gmap pretty.

Local Open Scope Z_scope.

(** ** The Go run time the handlers rely on *)

Module Go.

(** *** Machine integers and [time.Duration] *)

(** Go's [int64] arithmetic wraps around. *)
Definition int64_wrap (z : Z) : Z := (z + 2 ^ 63) mod 2 ^ 64 - 2 ^ 63.

Definition maxInt64 : Z := 2 ^ 63 - 1.
Definition minInt64 : Z := - 2 ^ 63.

(** [time.Duration] is an [int64] count of nanoseconds. *)
Definition Duration := Z.

Definition Nanosecond : Duration := 1.
Definition Microsecond : Duration := 1000 * Nanosecond.
Definition Millisecond : Duration := 1000 * Microsecond.
Definition Second : Duration := 1000 * Millisecond.

(** [time.Duration(n) * unit], an [int64] product. *)
Definition Duration_mul (n : Z) (unit : Duration) : Duration :=
  int64_wrap (int64_wrap n * unit).

(** [d.Milliseconds()] is [int64(d) / 1e6]; Go's integer division
    truncates toward zero. *)
Definition Milliseconds (d : Duration) : Z := Z.quot d 1000000.

(** A reading of the monotonic clock, in nanoseconds. *)
Definition Time := Z.

(** [t.Sub(u)]: the difference, saturated to the range of [Duration]. *)
Definition Time_Sub (t u : Time) : Duration :=
  Z.max minInt64 (Z.min maxInt64 (t - u)).

(** *** Floating point values

    [d.Seconds()] is a [float64].  The handlers only pass it on to the
    logger and to the histogram, so it is kept symbolic: the value
    "the duration [d] expressed in seconds". *)
Inductive float64 : Type :=
| Seconds (d : Duration).

(** A non-negative finite [float32]: the value [mant * 2^shift * 2^-149]
    with a 24 bit significand.  Every non-negative finite [float32] has
    this form, [2^-149] being the smallest positive one. *)
Record float32 : Type := F32 { mant : Z; shift : Z }.

Definition float32_valid (f : float32) : Prop :=
  0 <= mant f < 2 ^ 24 /\ 0 <= shift f <= 253.

(** The value scaled by [2^149], an integer. *)
Definition float32_scaled (f : float32) : Z := mant f * 2 ^ shift f.

(** The exact value as a rational number. *)
Definition float32_Q (f : float32) : Q :=
  Qmake (float32_scaled f) (Z.to_pos (2 ^ 149)).

(** [a < b] on [float32]: comparison of finite floats is exact. *)
Definition float32_lt (a b : float32) : bool :=
  float32_scaled a <? float32_scaled b.

(** The untyped constant [0.2] converted to [float32] (round to nearest):
    [13421773 * 2^-26], bit pattern [0x3E4CCCCD]. *)
Definition float32_0_2 : float32 := F32 13421773 123.

(** *** [math/rand]

    The process-wide source.  [rand_Intn n] is [rand.Intn(n)]: a value
    of the half-open interval [[0,n)], and a panic ([None]) when
    [n <= 0].  [rand_Float32] is [rand.Float32()]: a [float32] of
    [[0.0,1.0)]. *)
Class RandSource (R : Type) : Type := {
  rand_Intn : Z -> R -> option (Z * R);
  rand_Float32 : R -> float32 * R;
  rand_Intn_range : forall n r, 0 < n ->
    exists v r', rand_Intn n r = Some (v, r') /\ 0 <= v < n;
  rand_Intn_panic : forall n r, n <= 0 -> rand_Intn n r = None;
  rand_Float32_range : forall r,
    float32_valid (fst (rand_Float32 r)) /\
    float32_scaled (fst (rand_Float32 r)) < 2 ^ 149
}.

(** *** The clock

    [clock_now] is the monotonic reading behind [time.Now()];
    [clock_sleep d] is [time.Sleep(d)], which pauses for at least [d]
    and returns at once when [d] is not positive. *)
Class Clock (C : Type) : Type := {
  clock_now : C -> Time;
  clock_sleep : Duration -> C -> C;
  clock_sleep_at_least : forall d c,
    clock_now c + Z.max 0 d <= clock_now (clock_sleep d c)
}.

(** *** OpenTelemetry span contexts *)

(** [trace.TraceID] is a [[16]byte], [trace.SpanID] a [[8]byte]: byte
    lists of that very length. *)
Record TraceID : Type := mkTraceID {
  tid_bytes : list Byte.byte;
  tid_len : length tid_bytes = 16%nat
}.

Record SpanID : Type := mkSpanID {
  sid_bytes : list Byte.byte;
  sid_len : length sid_bytes = 8%nat
}.

Record SpanContext : Type := mkSpanContext {
  sc_TraceID : TraceID;
  sc_SpanID : SpanID
}.

(** The zero value, the context of the no-op span. *)
Definition zeroSpanContext : SpanContext :=
  mkSpanContext (mkTraceID (repeat Byte.x00 16) eq_refl)
                (mkSpanID (repeat Byte.x00 8) eq_refl).

(** A [context.Context], as far as tracing goes: the span bound in it,
    if any. *)
Definition Context : Type := option SpanContext.

(** [trace.SpanFromContext(ctx).SpanContext()]: the bound span, or the
    no-op span when there is none. *)
Definition SpanFromContext (ctx : Context) : SpanContext :=
  match ctx with
  | Some sc => sc
  | None => zeroSpanContext
  end.

Definition hex_digit (n : N) : ascii :=
  match n with
  | 0%N => "0" | 1%N => "1" | 2%N => "2" | 3%N => "3"
  | 4%N => "4" | 5%N => "5" | 6%N => "6" | 7%N => "7"
  | 8%N => "8" | 9%N => "9" | 10%N => "a" | 11%N => "b"
  | 12%N => "c" | 13%N => "d" | 14%N => "e" | _ => "f"
  end%char.

(** [hex.EncodeToString]: two lower-case digits per byte. *)
Fixpoint hex_EncodeToString (bs : list Byte.byte) : string :=
  match bs with
  | [] => EmptyString
  | b :: bs' =>
      String (hex_digit (N.div (Byte.to_N b) 16))
        (String (hex_digit (N.modulo (Byte.to_N b) 16))
           (hex_EncodeToString bs'))
  end.

(** [TraceID.String()] and [SpanID.String()]. *)
Definition TraceID_String (t : TraceID) : string :=
  hex_EncodeToString (tid_bytes t).
Definition SpanID_String (s : SpanID) : string :=
  hex_EncodeToString (sid_bytes s).

(** *** [log/slog] *)

Inductive Level : Type := LevelDebug | LevelInfo | LevelWarn | LevelError.

Inductive Value : Type :=
| VString (s : string)
| VInt (n : Z)
| VFloat (x : float64)
| VBool (b : bool).

Definition Attr : Type := string * Value.

(** One record handed to the JSON handler: level, message and the
    key/value attributes in output order.  The built-in [time] key is
    not modelled. *)
Record LogEntry : Type := mkLogEntry {
  le_level : Level;
  le_msg : string;
  le_attrs : list Attr
}.

(** The keys of an entry, in output order, and the value under a key. *)
Definition le_keys (e : LogEntry) : list string := map fst (le_attrs e).

Fixpoint Attr_get (key : string) (attrs : list Attr) : option Value :=
  match attrs with
  | [] => None
  | (k, v) :: rest => if String.eqb k key then Some v else Attr_get key rest
  end.

(** A [*slog.Logger]: the attributes attached so far by [With]. *)
Record Logger : Type := mkLogger { lg_attrs : list Attr }.

(** *** The collaborator calls of a handler, in program order *)

Definition Labels : Type := list (string * string).

Inductive Call : Type :=
| CSpanStart (tracer name : string) (parent : Context) (h : nat)
| CSpanEnd (h : nat)
| CSleep (d : Duration)
| CLog (e : LogEntry)
| CPrintf (format : string) (arg : Duration)
| CSetHeader (key value : string)
| CWriteHeader (code : Z)
| CWrite (b : string)
| CObserve (lvs : list string) (v : float64) (exemplar : option Labels).

(** *** [net/http] *)

Definition StatusOK : Z := 200.
Definition StatusInternalServerError : Z := 500.

(** The line feed that Go writes as a backslash followed by n. *)
Definition LF : string := String (ascii_of_nat 10) EmptyString.

(** An inbound request: its method and the context the tracing
    middleware bound to it. *)
Record Request : Type := mkRequest {
  req_Method : string;
  req_Context : Context
}.

(** What the client gets, as built up by the [http.ResponseWriter]. *)
Record Response : Type := mkResponse {
  rs_wroteHeader : bool;
  rs_status : Z;
  rs_header : list (string * string);
  rs_body : string
}.

Definition emptyResponse : Response := mkResponse false 0 [] EmptyString.

(** The response writer of [net/http]: the first [WriteHeader] fixes the
    status and the headers, later ones are ignored; a [Write] before any
    [WriteHeader] sends status 200 first. *)
Definition Response_step (rs : Response) (c : Call) : Response :=
  match c with
  | CSetHeader k v =>
      if rs_wroteHeader rs then rs
      else mkResponse false (rs_status rs)
             ((k, v) :: filter (fun kv => negb (String.eqb (fst kv) k))
                               (rs_header rs))
             (rs_body rs)
  | CWriteHeader code =>
      if rs_wroteHeader rs then rs
      else mkResponse true code (rs_header rs) (rs_body rs)
  | CWrite b =>
      mkResponse true
        (if rs_wroteHeader rs then rs_status rs else StatusOK)
        (rs_header rs) (rs_body rs ++ b)
  | _ => rs
  end.

Definition Response_of (calls : list Call) : Response :=
  fold_left Response_step calls emptyResponse.

(** The calls that commit a status line: an effective [WriteHeader] or a
    [Write] that finds none sent yet. *)
Fixpoint status_lines (wrote : bool) (calls : list Call) : list Z :=
  match calls with
  | [] => []
  | CWriteHeader code :: cs =>
      if wrote then status_lines wrote cs else code :: status_lines true cs
  | CWrite _ :: cs =>
      if wrote then status_lines wrote cs
      else StatusOK :: status_lines true cs
  | _ :: cs => status_lines wrote cs
  end.

(** [responds code body cs]: the calls [cs] commit exactly one status
    line, [code], and leave the client with that status and the body
    [body]. *)
Definition responds (code : Z) (body : string) (cs : list Call) : Prop :=
  status_lines false cs = [code] /\
  rs_wroteHeader (Response_of cs) = true /\
  rs_status (Response_of cs) = code /\
  rs_body (Response_of cs) = body.

(** *** [strconv] *)

(** [strconv.Itoa]: the decimal representation. *)
Definition Itoa (n : Z) : string := pretty n.

(** *** Prometheus histograms *)

(** A [*prometheus.HistogramVec]: its variable labels, and whether the
    observers it hands out implement [prometheus.ExemplarObserver]. *)
Record HistogramVec : Type := mkHistogramVec {
  hv_name : string;
  hv_labelNames : list string;
  hv_exemplars : bool
}.

(** The [prometheus.Observer] returned by [WithLabelValues]. *)
Record Observer : Type := mkObserver {
  ob_lvs : list string;
  ob_ExemplarObserver : bool
}.

(** Exemplar labels may hold at most [ExemplarMaxRunes] characters. *)
Definition ExemplarMaxRunes : nat := 128.

Definition exemplar_runes (ls : Labels) : nat :=
  fold_right (fun kv n => (String.length (fst kv) +
                           String.length (snd kv) + n)%nat) 0%nat ls.

(** One recorded observation. *)
Definition Sample : Type := float64 * option Labels.

(** The process-wide histogram state: per label values, the samples
    observed so far; the histogram's sample count is their number. *)
Abbreviation Histograms := (gmap (list string) (list Sample)).

Definition hist_samples (h : Histograms) (lvs : list string) : list Sample :=
  default [] (h !! lvs).

Definition hist_count (h : Histograms) (lvs : list string) : nat :=
  length (hist_samples h lvs).

Definition hist_observe (lvs : list string) (s : Sample) (h : Histograms)
    : Histograms :=
  <[lvs := hist_samples h lvs ++ [s]]> h.

Definition Histograms_step (h : Histograms) (c : Call) : Histograms :=
  match c with
  | CObserve lvs v ex => hist_observe lvs (v, ex) h
  | _ => h
  end.

Definition Histograms_after (calls : list Call) (h : Histograms) : Histograms :=
  fold_left Histograms_step calls h.

(** *** Readings of a list of calls *)

Definition log_entries (calls : list Call) : list LogEntry :=
  omap (fun c => match c with CLog e => Some e | _ => None end) calls.

Definition printed (calls : list Call) : list (string * Duration) :=
  omap (fun c => match c with CPrintf fmt d => Some (fmt, d) | _ => None end)
       calls.

Definition sleeps (calls : list Call) : list Duration :=
  omap (fun c => match c with CSleep d => Some d | _ => None end) calls.

Definition observations (calls : list Call)
    : list (list string * float64 * option Labels) :=
  omap (fun c => match c with
                 | CObserve lvs v ex => Some (lvs, v, ex)
                 | _ => None
                 end) calls.

Definition span_starts (calls : list Call) : list (string * nat) :=
  omap (fun c => match c with
                 | CSpanStart _ name _ h => Some (name, h)
                 | _ => None
                 end) calls.

Definition span_ends (calls : list Call) : list nat :=
  omap (fun c => match c with CSpanEnd h => Some h | _ => None end) calls.

(** Runs the span calls against the stack of open spans: a span may only
    be ended when it is the last one started and not yet ended.  The
    result is the stack left open, or [None] at the first violation. *)
Fixpoint span_stack (open : list nat) (calls : list Call)
    : option (list nat) :=
  match calls with
  | [] => Some open
  | CSpanStart _ _ _ h :: cs => span_stack (h :: open) cs
  | CSpanEnd h :: cs =>
      match open with
      | top :: rest => if Nat.eqb top h then span_stack rest cs else None
      | [] => None
      end
  | _ :: cs => span_stack open cs
  end.

(** The position of the first call satisfying [p]. *)
Fixpoint index_of (p : Call -> bool) (calls : list Call) : option nat :=
  match calls with
  | [] => None
  | c :: cs => if p c then Some 0%nat else S <$> index_of p cs
  end.

(** The position of the last call satisfying [p]. *)
Fixpoint last_index_of (p : Call -> bool) (calls : list Call) : option nat :=
  match calls with
  | [] => None
  | c :: cs =>
      match last_index_of p cs with
      | Some i => Some (S i)
      | None => if p c then Some 0%nat else None
      end
  end.

Definition is_log (c : Call) : bool :=
  match c with CLog _ => true | _ => false end.
Definition is_observe (c : Call) : bool :=
  match c with CObserve _ _ _ => true | _ => false end.
Definition is_response_write (c : Call) : bool :=
  match c with CWriteHeader _ | CWrite _ => true | _ => false end.

(** *** The state-and-panic monad *)

Section Exec.

Context {R C : Type} `{RandSource R} `{Clock C}.

Record World : Type := mkWorld {
  w_rand : R;
  w_clock : C;
  w_spans : nat;          (* span handles handed out so far *)
  w_calls : list Call     (* collaborator calls, oldest first *)
}.

(** [None] is a Go panic. *)
Definition M (A : Type) : Type := World -> option (A * World).

Definition ret {A} (a : A) : M A := fun w => Some (a, w).

Definition bind {A B} (m : M A) (k : A -> M B) : M B :=
  fun w => match m w with
           | Some (a, w') => k a w'
           | None => None
           end.

Definition emit (c : Call) : M unit :=
  fun w => Some (tt, mkWorld (w_rand w) (w_clock w) (w_spans w)
                       (w_calls w ++ [c])).

(** [rand.Intn(n)] *)
Definition Intn (n : Z) : M Z :=
  fun w => match rand_Intn n (w_rand w) with
           | Some (v, r') =>
               Some (v, mkWorld r' (w_clock w) (w_spans w) (w_calls w))
           | None => None
           end.

(** [rand.Float32()] *)
Definition Float32 : M float32 :=
  fun w => let '(f, r') := rand_Float32 (w_rand w) in
           Some (f, mkWorld r' (w_clock w) (w_spans w) (w_calls w)).

(** [time.Now()] *)
Definition Now : M Time := fun w => Some (clock_now (w_clock w), w).

(** [time.Since(t)] is [time.Now().Sub(t)]. *)
Definition Since (t : Time) : M Duration :=
  fun w => Some (Time_Sub (clock_now (w_clock w)) t, w).

(** [time.Sleep(d)] *)
Definition Sleep (d : Duration) : M unit :=
  fun w => Some (tt, mkWorld (w_rand w) (clock_sleep d (w_clock w))
                       (w_spans w) (w_calls w ++ [CSleep d])).

(** [otel.Tracer(tracer).Start(ctx, name)]: a fresh span handle whose
    parent is the span bound in [ctx]. *)
Definition Tracer_Start (tracer : string) (ctx : Context)
    (name : string) : M nat :=
  fun w => let h := w_spans w in
           Some (h, mkWorld (w_rand w) (w_clock w) (S h)
                      (w_calls w ++ [CSpanStart tracer name ctx h])).

(** [span.End()] *)
Definition Span_End (h : nat) : M unit := emit (CSpanEnd h).

(** [logger.With(args...)] *)
Definition Logger_With (l : Logger) (args : list Attr) : Logger :=
  mkLogger (lg_attrs l ++ args).

Definition Logger_log (lv : Level) (l : Logger) (msg : string)
    (args : list Attr) : M unit :=
  emit (CLog (mkLogEntry lv msg (lg_attrs l ++ args))).

Definition Logger_Info := Logger_log LevelInfo.
Definition Logger_Warn := Logger_log LevelWarn.
Definition Logger_Error := Logger_log LevelError.

(** [fmt.Printf(format, d)] with one [time.Duration] argument. *)
Definition Printf (format : string) (arg : Duration) : M unit :=
  emit (CPrintf format arg).

(** [w.WriteHeader(code)] and [w.Write(b)] *)
Definition WriteHeader (code : Z) : M unit := emit (CWriteHeader code).
Definition Write (b : string) : M unit := emit (CWrite b).

(** [http.Error(w, error, code)]: plain-text headers, the status, and
    the message followed by a line feed. *)
Definition http_Error (error : string) (code : Z) : M unit :=
  bind (emit (CSetHeader "Content-Type" "text/plain; charset=utf-8"))
    (fun _ =>
  bind (emit (CSetHeader "X-Content-Type-Options" "nosniff")) (fun _ =>
  bind (WriteHeader code) (fun _ =>
  Write (error ++ LF)))).

Definition panic {A} : M A := fun _ => None.

(** [runs h w cs]: started in [w], the computation [h] returns without
    panic, having made exactly the calls [cs]. *)
Definition runs {A} (h : M A) (w : World) (cs : list Call) : Prop :=
  exists a w', h w = Some (a, w') /\ w_calls w' = w_calls w ++ cs.

(** [vec.WithLabelValues(lvs...)] panics unless there is one value
    per variable label. *)
Definition WithLabelValues (vec : HistogramVec) (lvs : list string)
    : M Observer :=
  if Nat.eqb (length lvs) (length (hv_labelNames vec))
  then ret (mkObserver lvs (hv_exemplars vec))
  else panic.

(** [obs.Observe(v)] *)
Definition Observe (obs : Observer) (v : float64) : M unit :=
  emit (CObserve (ob_lvs obs) v None).

(** [obs.ObserveWithExemplar(v, labels)] panics when the exemplar
    labels are longer than [ExemplarMaxRunes]. *)
Definition ObserveWithExemplar (obs : Observer) (v : float64)
    (labels : Labels) : M unit :=
  if Nat.leb (exemplar_runes labels) ExemplarMaxRunes
  then emit (CObserve (ob_lvs obs) v (Some labels))
  else panic.

End Exec.

Arguments World : clear implicits.
Arguments M : clear implicits.

Declare Scope go_scope.
Delimit Scope go_scope with go.

Notation "x <- c1 ;; c2" := (bind c1 (fun x => c2))
  (at level 100, c1 at next level, right associativity) : go_scope.
Notation "c1 ;; c2" := (bind c1 (fun _ => c2))
  (at level 100, right associativity) : go_scope.

End Go.

Import Go.
Local Open Scope go_scope.

(** ** The instrumented service, [src/app/main.go] *)

Module App.

Section Handlers.

Context {R C : Type} `{RandSource R} `{Clock C}.

(** [var logger = slog.New(slog.NewJSONHandler(os.Stdout, nil))] *)
Definition logger : Logger := mkLogger [].

(** [var reqDuration = prometheus.NewHistogramVec(...)], labelled by
    method and status.  [exemplars] tells whether the metric backend
    hands out observers with exemplar support. *)
Definition reqDuration (exemplars : bool) : HistogramVec :=
  mkHistogramVec "http_request_duration_seconds" ["method"; "status"]
    exemplars.

Definition healthzHandler (r : Request) : M R C unit :=
  WriteHeader StatusOK ;;
  Write "OK".

Definition workHandler (exemplars : bool) (r : Request) : M R C unit :=
  start <- Now ;;
  let status := StatusOK in
  let ctx := req_Context r in
  let span := SpanFromContext ctx in
  let traceID := TraceID_String (sc_TraceID span) in
  let log := Logger_With logger
               [("trace_id", VString traceID);
                ("span_id", VString (SpanID_String (sc_SpanID span)))] in
  (* Nested span to simulate work *)
  childSpan <- Tracer_Start "app" ctx "simulate_work" ;;
  n <- Intn 400 ;;
  let latency := Duration_mul n Millisecond in
  Sleep latency ;;
  Span_End childSpan ;;
  cacheSpan <- Tracer_Start "app" ctx "db_cache_lookup" ;;
  m <- Intn 200 ;;
  Sleep (Duration_mul m Millisecond) ;;
  Span_End cacheSpan ;;
  (* the code fails 20% of the time *)
  f <- Float32 ;;
  status <-
    (if float32_lt f float32_0_2 then
       let status := StatusInternalServerError in
       Logger_Error log "request failed"
         [("latency_ms", VInt (Milliseconds latency));
          ("status", VInt status)] ;;
       http_Error "Internal Server Error" StatusInternalServerError ;;
       ret status
     else
       Logger_Info log "request succeeded"
         [("latency_ms", VInt (Milliseconds latency));
          ("status", VInt status)] ;;
       Write ("Work completed" ++ LF) ;;
       ret status) ;;
  (* Record request duration with exemplar *)
  d <- Since start ;;
  let duration := Seconds d in
  obs <- WithLabelValues (reqDuration exemplars)
           [req_Method r; Itoa status] ;;
  let ok := ob_ExemplarObserver obs in
  if ok && negb (String.eqb traceID "") then
    Logger_Info log "Attaching exemplar"
      [("traceID", VString traceID); ("duration", VFloat duration)] ;;
    ObserveWithExemplar obs duration [("traceID", traceID)]
  else
    Logger_Warn log "Exemplar not supported or traceID empty"
      [("traceID", VString traceID); ("ok", VBool ok)] ;;
    Observe obs duration.

(** What the random source hands to one run of [workHandler] started
    with source [rs]: the two pauses in milliseconds and the failure
    draw, in the order the handler asks for them. *)
Definition draws (rs : R) (n m : Z) (f : float32) (rs' : R) : Prop :=
  exists r1 r2,
    rand_Intn 400 rs = Some (n, r1) /\
    rand_Intn 200 r1 = Some (m, r2) /\
    rand_Float32 r2 = (f, rs').

(** The elapsed time [workHandler] reads at its end, on a clock that
    showed [c] at its start. *)
Definition elapsed (c : C) (n m : Z) : Duration :=
  Time_Sub
    (clock_now (clock_sleep (Duration_mul m Millisecond)
                  (clock_sleep (Duration_mul n Millisecond) c)))
    (clock_now c).

(** The calls of one run of [workHandler], spelled out as a function
    of what the collaborators returned: the first free span handle [h],
    the two pauses, whether the failure draw was below the threshold,
    and the elapsed time read at the end. *)
Definition request_logger (r : Request) : Logger :=
  let span := SpanFromContext (req_Context r) in
  Logger_With logger
    [("trace_id", VString (TraceID_String (sc_TraceID span)));
     ("span_id", VString (SpanID_String (sc_SpanID span)))].

Definition outcome_entry (r : Request) (latency : Duration)
    (failed : bool) : LogEntry :=
  if failed then
    mkLogEntry LevelError "request failed"
      (lg_attrs (request_logger r) ++
       [("latency_ms", VInt (Milliseconds latency));
        ("status", VInt StatusInternalServerError)])
  else
    mkLogEntry LevelInfo "request succeeded"
      (lg_attrs (request_logger r) ++
       [("latency_ms", VInt (Milliseconds latency));
        ("status", VInt StatusOK)]).

Definition exemplar_entry (r : Request) (exemplars : bool)
    (d : Duration) : LogEntry :=
  let traceID :=
    TraceID_String (sc_TraceID (SpanFromContext (req_Context r))) in
  if exemplars then
    mkLogEntry LevelInfo "Attaching exemplar"
      (lg_attrs (request_logger r) ++
       [("traceID", VString traceID); ("duration", VFloat (Seconds d))])
  else
    mkLogEntry LevelWarn "Exemplar not supported or traceID empty"
      (lg_attrs (request_logger r) ++
       [("traceID", VString traceID); ("ok", VBool false)]).

Definition status_of (failed : bool) : Z :=
  if failed then StatusInternalServerError else StatusOK.

Definition work_calls (exemplars : bool) (r : Request) (h : nat)
    (latency pause : Duration) (failed : bool) (d : Duration)
    : list Call :=
  let ctx := req_Context r in
  let traceID := TraceID_String (sc_TraceID (SpanFromContext ctx)) in
  let lvs := [req_Method r; Itoa (status_of failed)] in
  [CSpanStart "app" "simulate_work" ctx h;
   CSleep latency;
   CSpanEnd h;
   CSpanStart "app" "db_cache_lookup" ctx (S h);
   CSleep pause;
   CSpanEnd (S h);
   CLog (outcome_entry r latency failed)] ++
  (if failed then
     [CSetHeader "Content-Type" "text/plain; charset=utf-8";
      CSetHeader "X-Content-Type-Options" "nosniff";
      CWriteHeader StatusInternalServerError;
      CWrite ("Internal Server Error" ++ LF)]
   else
     [CWrite ("Work completed" ++ LF)]) ++
  [CLog (exemplar_entry r exemplars d);
   CObserve lvs (Seconds d)
     (if exemplars then Some [("traceID", traceID)] else None)].

End Handlers.

End App.

(** ** The plain service: sleep, print, respond *)

Module Plain.

Section Handlers.

Context {R C : Type} `{RandSource R} `{Clock C}.

Definition healthzHandler (r : Request) : M R C unit :=
  WriteHeader StatusOK ;;
  Write "OK".

Definition workHandler (r : Request) : M R C unit :=
  (* Sleep for random time (0-500ms) *)
  n <- Intn 500 ;;
  let latency := Duration_mul n Millisecond in
  Sleep latency ;;
  (* 20% chance of error *)
  f <- Float32 ;;
  if float32_lt f float32_0_2 then
    Printf ("ERROR: Request failed after %v" ++ LF) latency ;;
    http_Error "Internal Server Error" StatusInternalServerError
  else
    Printf ("SUCCESS: Request completed in %v" ++ LF) latency ;;
    Write ("Work completed" ++ LF).

(** What the random source hands to one run of [workHandler]: the
    pause in milliseconds and the failure draw. *)
Definition draws (rs : R) (n : Z) (f : float32) (rs' : R) : Prop :=
  exists r1,
    rand_Intn 500 rs = Some (n, r1) /\
    rand_Float32 r1 = (f, rs').

(** The calls of one run of [workHandler]. *)
Definition work_calls (latency : Duration) (failed : bool) : list Call :=
  CSleep latency ::
  (if failed then
     [CPrintf ("ERROR: Request failed after %v" ++ LF) latency;
      CSetHeader "Content-Type" "text/plain; charset=utf-8";
      CSetHeader "X-Content-Type-Options" "nosniff";
      CWriteHeader StatusInternalServerError;
      CWrite ("Internal Server Error" ++ LF)]
   else
     [CPrintf ("SUCCESS: Request completed in %v" ++ LF) latency;
      CWrite ("Work completed" ++ LF)]).

End Handlers.

End Plain.

(** ** Hexadecimal text

    What the identifiers printed by [TraceID.String()] and
    [SpanID.String()] look like, and how to read them back. *)

Definition is_lower_hex (c : ascii) : bool :=
  match c with
  | "0" | "1" | "2" | "3" | "4" | "5" | "6" | "7" | "8" | "9"
  | "a" | "b" | "c" | "d" | "e" | "f" => true
  | _ => false
  end%char.

Fixpoint lower_hex (s : string) : bool :=
  match s with
  | EmptyString => true
  | String c s' => is_lower_hex c && lower_hex s'
  end.

Definition hex_value (c : ascii) : N :=
  match c with
  | "0" => 0 | "1" => 1 | "2" => 2 | "3" => 3 | "4" => 4
  | "5" => 5 | "6" => 6 | "7" => 7 | "8" => 8 | "9" => 9
  | "a" => 10 | "b" => 11 | "c" => 12 | "d" => 13 | "e" => 14
  | _ => 15
  end%char%N.

(** Reads the bytes back from their two-digit groups. *)
Fixpoint hex_decode (s : string) : list Byte.byte :=
  match s with
  | String hi (String lo s') =>
      match Byte.of_N (16 * hex_value hi + hex_value lo) with
      | Some b => b :: hex_decode s'
      | None => []
      end
  | _ => []
  end.

(** ** Process start-up: [main] and [initOTel]

    Start-up talks to its own collaborators: the process environment,
    the constructors of the OpenTelemetry resource and exporters, the
    default HTTP mux, the default Prometheus registry and the listener.
    What they answer is gathered in a [Host]; what the process has done
    so far, in a [Process]. *)

Module Startup.

(** The attributes [initOTel] gives the OpenTelemetry resource. *)
Record Resource : Type := mkResource {
  service_name : string;
  service_version : string
}.

(** An OTLP gRPC exporter, as configured by its options. *)
Record Exporter : Type := mkExporter {
  ex_insecure : bool;
  ex_endpoint : string
}.

(** A tracer or meter provider: the exporter it sends to (through a
    batcher or a periodic reader) and its resource. *)
Record Provider : Type := mkProvider {
  pv_exporter : Exporter;
  pv_resource : Resource
}.

(** The two handler functions of the services. *)
Inductive HandlerFunc : Type := healthzHandler | workHandler.

(** What is mounted on a route: [otelhttp.NewHandler(f, operation)] or
    [promhttp.HandlerFor(DefaultGatherer, HandlerOpts{EnableOpenMetrics})]. *)
Inductive Handler : Type :=
| otelhttp_NewHandler (f : HandlerFunc) (operation : string)
| promhttp_HandlerFor (EnableOpenMetrics : bool).

Inductive SysCall : Type :=
| SResourceNew (r : Resource)
| SGetenv (key : string)
| STraceExporterNew (e : Exporter)
| SMetricExporterNew (e : Exporter)
| SSetTracerProvider (p : Provider)
| SSetMeterProvider (p : Provider)
| SShutdownTracer (p : Provider)
| SShutdownMeter (p : Provider)
| SHandle (pattern : string) (h : Handler)
| SMustRegister (name : string)
| SPrintln (msg : string)
| SListenAndServe (addr : string)
| SFatalf (format : string) (err : string)
| SFatal (err : string).

(** What the surroundings answer: the environment variables, the error
    (if any) of each constructor, and the error with which
    [http.ListenAndServe] returns, [None] when it serves for ever. *)
Record Host : Type := mkHost {
  environ : gmap string string;
  resource_err : option string;
  trace_exporter_err : option string;
  metric_exporter_err : option string;
  listen_err : option string
}.

(** The state of the process: the calls made, oldest first, the patterns
    of [http.DefaultServeMux] and the collectors of the default
    Prometheus registry. *)
Record Process : Type := mkProcess {
  p_calls : list SysCall;
  p_mux : gmap string Handler;
  p_registry : gset string
}.

(** A process that has done nothing yet. *)
Definition fresh : Process := mkProcess [] ∅ ∅.

(** How a piece of start-up code ends: it returns, the process exits
    ([os.Exit]), it panics, or it blocks for ever serving requests. *)
Inductive Outcome (A : Type) : Type :=
| Returned (a : A)
| Exited (code : Z)
| Panicked (msg : string)
| Serving.

Arguments Returned {A} a.
Arguments Exited {A} code.
Arguments Panicked {A} msg.
Arguments Serving {A}.

Definition P (A : Type) : Type := Host -> Process -> Outcome A * Process.

Definition ret {A} (a : A) : P A := fun _ st => (Returned a, st).

Definition bind {A B} (m : P A) (k : A -> P B) : P B :=
  fun host st =>
    match m host st with
    | (Returned a, st') => k a host st'
    | (Exited code, st') => (Exited code, st')
    | (Panicked msg, st') => (Panicked msg, st')
    | (Serving, st') => (Serving, st')
    end.

Definition record (c : SysCall) (st : Process) : Process :=
  mkProcess (p_calls st ++ [c]) (p_mux st) (p_registry st).

Definition call (c : SysCall) : P unit :=
  fun _ st => (Returned tt, record c st).

(** [defer d] in front of [body]: [d] runs when [body] returns or
    panics, not when the process exits or never leaves [body]. *)
Definition with_defer {A} (d : P unit) (body : P A) : P A :=
  fun host st =>
    match body host st with
    | (Returned a, st') =>
        match d host st' with
        | (Returned _, st'') => (Returned a, st'')
        | (Exited code, st'') => (Exited code, st'')
        | (Panicked msg, st'') => (Panicked msg, st'')
        | (Serving, st'') => (Serving, st'')
        end
    | (Panicked msg, st') =>
        match d host st' with
        | (Returned _, st'') => (Panicked msg, st'')
        | (Exited code, st'') => (Exited code, st'')
        | (Panicked msg', st'') => (Panicked msg', st'')
        | (Serving, st'') => (Serving, st'')
        end
    | (Exited code, st') => (Exited code, st')
    | (Serving, st') => (Serving, st')
    end.

(** [os.Getenv(key)]: the value, empty when the variable is not set. *)
Definition Getenv (key : string) : P string :=
  fun host st =>
    (Returned (default EmptyString (environ host !! key)),
     record (SGetenv key) st).

(** [resource.New(ctx, resource.WithAttributes(...))] *)
Definition resource_New (r : Resource) : P (Resource * option string) :=
  fun host st => (Returned (r, resource_err host), record (SResourceNew r) st).

(** [otlptracegrpc.New(ctx, options...)] *)
Definition otlptracegrpc_New (e : Exporter) : P (Exporter * option string) :=
  fun host st =>
    (Returned (e, trace_exporter_err host), record (STraceExporterNew e) st).

(** [otlpmetricgrpc.New(ctx, options...)] *)
Definition otlpmetricgrpc_New (e : Exporter) : P (Exporter * option string) :=
  fun host st =>
    (Returned (e, metric_exporter_err host), record (SMetricExporterNew e) st).

(** [log.Fatalf(format, err)] and [log.Fatal(err)]: print, then
    [os.Exit(1)]. *)
Definition log_Fatalf {A} (format err : string) : P A :=
  fun _ st => (Exited 1, record (SFatalf format err) st).

Definition log_Fatal {A} (err : string) : P A :=
  fun _ st => (Exited 1, record (SFatal err) st).

Definition log_Println (msg : string) : P unit := call (SPrintln msg).

(** [http.Handle(pattern, handler)] panics on an empty pattern and on a
    pattern that is registered already. *)
Definition http_Handle (pattern : string) (h : Handler) : P unit :=
  fun _ st =>
    if String.eqb pattern EmptyString
    then (Panicked "http: invalid pattern", st)
    else match p_mux st !! pattern with
         | Some _ =>
             (Panicked ("http: multiple registrations for " ++ pattern), st)
         | None =>
             (Returned tt,
              mkProcess (p_calls st ++ [SHandle pattern h])
                        (<[pattern := h]> (p_mux st)) (p_registry st))
         end.

(** [prometheus.MustRegister(c)] panics when a collector of that name is
    registered already. *)
Definition MustRegister (name : string) : P unit :=
  fun _ st =>
    if decide (name ∈ p_registry st)
    then (Panicked "duplicate metrics collector registration attempted", st)
    else (Returned tt,
          mkProcess (p_calls st ++ [SMustRegister name]) (p_mux st)
                    ({[name]} ∪ p_registry st)).

(** [http.ListenAndServe(addr, nil)] serves until it fails; the error it
    returns is never nil. *)
Definition ListenAndServe (addr : string) : P string :=
  fun host st =>
    match listen_err host with
    | Some err => (Returned err, record (SListenAndServe addr) st)
    | None => (Serving, record (SListenAndServe addr) st)
    end.

Declare Scope startup_scope.
Delimit Scope startup_scope with startup.

Notation "x <- c1 ;; c2" := (bind c1 (fun x => c2))
  (at level 100, c1 at next level, right associativity) : startup_scope.
Notation "c1 ;; c2" := (bind c1 (fun _ => c2))
  (at level 100, right associativity) : startup_scope.

Local Open Scope startup_scope.

(** [initOTel], the same function in both services.  It returns the
    clean-up function, here the computation that function runs. *)
Definition initOTel : P (P unit) :=
  (* Create resource (identifies this service) *)
  r <- resource_New (mkResource "sample-app" "1.0.0") ;;
  let '(res, err) := r in
  (match err with
   | Some e => log_Fatalf "failed to create resource: %v" e
   | None => ret tt
   end) ;;
  (* Get OTel Collector endpoint *)
  otelEndpoint <- Getenv "OTEL_EXPORTER_OTLP_ENDPOINT" ;;
  let otelEndpoint :=
    if String.eqb otelEndpoint EmptyString then "otel-collector:4317"
    else otelEndpoint in
  (* Setup trace exporter *)
  r <- otlptracegrpc_New (mkExporter true otelEndpoint) ;;
  let '(traceExporter, err) := r in
  (match err with
   | Some e => log_Fatalf "failed to create trace exporter: %v" e
   | None => ret tt
   end) ;;
  (* Setup trace provider *)
  let tracerProvider := mkProvider traceExporter res in
  call (SSetTracerProvider tracerProvider) ;;
  (* Setup metric exporter *)
  r <- otlpmetricgrpc_New (mkExporter true otelEndpoint) ;;
  let '(metricExporter, err) := r in
  (match err with
   | Some e => log_Fatalf "failed to create metric exporter: %v" e
   | None => ret tt
   end) ;;
  (* Setup metric provider *)
  let meterProvider := mkProvider metricExporter res in
  call (SSetMeterProvider meterProvider) ;;
  (* Return cleanup function *)
  ret (call (SShutdownTracer tracerProvider) ;;
       call (SShutdownMeter meterProvider)).

(** The routes both services mount. *)
Definition handle_routes : P unit :=
  http_Handle "/healthz" (otelhttp_NewHandler healthzHandler "healthz") ;;
  http_Handle "/work" (otelhttp_NewHandler workHandler "work").

(** [main] of the instrumented service, [src/app/main.go]. *)
Definition App_main : P unit :=
  shutdown <- initOTel ;;
  with_defer shutdown
    (handle_routes ;;
     (* Register Prometheus metrics *)
     MustRegister (hv_name (App.reqDuration true)) ;;
     http_Handle "/metrics" (promhttp_HandlerFor true) ;;
     log_Println "Starting server on :8080" ;;
     err <- ListenAndServe ":8080" ;;
     log_Fatal err).

(** [main] of the plain service. *)
Definition Plain_main : P unit :=
  shutdown <- initOTel ;;
  with_defer shutdown
    (handle_routes ;;
     log_Println "Starting server on :8080" ;;
     err <- ListenAndServe ":8080" ;;
     log_Fatal err).

(** *** Readings of the start-up calls *)

Definition exporter_endpoints (calls : list SysCall) : list string :=
  omap (fun c => match c with
                 | STraceExporterNew e | SMetricExporterNew e =>
                     Some (ex_endpoint e)
                 | _ => None
                 end) calls.

Definition is_shutdown (c : SysCall) : bool :=
  match c with SShutdownTracer _ | SShutdownMeter _ => true | _ => false end.

Definition is_route (c : SysCall) : bool :=
  match c with SHandle _ _ => true | _ => false end.

Definition is_listen (c : SysCall) : bool :=
  match c with SListenAndServe _ => true | _ => false end.


Definition init_fails (host : Host) : bool :=
  bool_decide (resource_err host <> None) ||
  bool_decide (trace_exporter_err host <> None) ||
  bool_decide (metric_exporter_err host <> None).

(** The process after some more calls that touch neither the mux nor
    the registry. *)
Definition record_all (cs : list SysCall) (st : Process) : Process :=
  mkProcess (p_calls st ++ cs) (p_mux st) (p_registry st).

(** The endpoint [initOTel] settles on, and the provider it builds on it
    (the tracer and the meter provider are configured alike). *)
Definition otelEndpoint_of (host : Host) : string :=
  let v := default EmptyString (environ host !! "OTEL_EXPORTER_OTLP_ENDPOINT") in
  if String.eqb v EmptyString then "otel-collector:4317" else v.

Definition provider_of (host : Host) : Provider :=
  mkProvider (mkExporter true (otelEndpoint_of host))
             (mkResource "sample-app" "1.0.0").

(** The calls of an [initOTel] that succeeds. *)
Definition init_calls (host : Host) : list SysCall :=
  [SResourceNew (mkResource "sample-app" "1.0.0");
   SGetenv "OTEL_EXPORTER_OTLP_ENDPOINT";
   STraceExporterNew (mkExporter true (otelEndpoint_of host));
   SSetTracerProvider (provider_of host);
   SMetricExporterNew (mkExporter true (otelEndpoint_of host));
   SSetMeterProvider (provider_of host)].

(** How [main] ends once the server has been asked to listen. *)
Definition listen_outcome (host : Host) : Outcome unit :=
  match listen_err host with
  | Some _ => Exited 1
  | None => Serving
  end.

Definition listen_calls (host : Host) : list SysCall :=
  SListenAndServe ":8080" ::
  match listen_err host with
  | Some e => [SFatal e]
  | None => []
  end.

(** A host on which start-up succeeds, with the endpoint set in the
    environment and a port that is taken. *)
Definition hostA : Host :=
  mkHost (<["OTEL_EXPORTER_OTLP_ENDPOINT" := "collector.local:4317"]> ∅)
         None None None (Some "listen tcp :8080: bind: address already in use").

(** A host on which the metric exporter cannot be created. *)
Definition hostB : Host :=
  mkHost ∅ None None (Some "context deadline exceeded") None.

(** A process in which something has mounted [/work] before [main]. *)
Definition taken : Process :=
  mkProcess [] (<["/work" := promhttp_HandlerFor false]> ∅) ∅.

(** The clean-up function [initOTel] returns. *)
Definition shutdown_of (host : Host) : P unit :=
  call (SShutdownTracer (provider_of host)) ;;
  call (SShutdownMeter (provider_of host)).

End Startup.

(** ** Scripted collaborators

    Concrete instances of the random source and of the clock, on which
    the handlers can be run: a random source that replays a script of
    draws, and a clock whose sleeps overshoot by a fixed lag. *)

Module Scripted.

Record Script : Type := mkScript {
  sc_ints : list Z;
  sc_floats : list float32
}.

Definition float32_unit_b (f : float32) : bool :=
  (0 <=? mant f) && (mant f <? 2 ^ 24) && (0 <=? shift f) &&
  (shift f <=? 253) && (float32_scaled f <? 2 ^ 149).

Definition script_Intn (n : Z) (s : Script) : option (Z * Script) :=
  if n <=? 0 then None
  else match sc_ints s with
       | v :: rest => Some (v mod n, mkScript rest (sc_floats s))
       | [] => Some (0, s)
       end.

Definition script_Float32 (s : Script) : float32 * Script :=
  match sc_floats s with
  | f :: rest =>
      (if float32_unit_b f then f else F32 0 0, mkScript (sc_ints s) rest)
  | [] => (F32 0 0, s)
  end.

#[export] Instance script_RandSource : RandSource Script.
Proof.
  refine {| rand_Intn := script_Intn; rand_Float32 := script_Float32 |}.
  - intros n [ints floats] Hn. unfold script_Intn. simpl.
    destruct (Z.leb_spec n 0) as [Hle|_]; [lia|].
    destruct ints as [|v rest].
    + exists 0, (mkScript [] floats). split; [reflexivity|lia].
    + exists (v mod n), (mkScript rest floats). split; [reflexivity|].
      apply Z.mod_pos_bound. exact Hn.
  - intros n s Hn. unfold script_Intn.
    destruct (Z.leb_spec n 0) as [_|Hgt]; [reflexivity|lia].
  - intros [ints floats]. unfold script_Float32. simpl.
    destruct floats as [|f rest]; simpl.
    + unfold float32_valid, float32_scaled. simpl. lia.
    + destruct (float32_unit_b f) eqn:E.
      * unfold float32_unit_b in E.
        repeat (apply andb_prop in E; destruct E as [E ?]).
        unfold float32_valid. lia.
      * unfold float32_valid, float32_scaled. simpl. lia.
Defined.

Record LagClock : Type := mkLagClock {
  lc_now : Z;
  lc_lag : N
}.

#[export] Instance lag_Clock : Clock LagClock.
Proof.
  refine {| clock_now := lc_now;
            clock_sleep := fun d c =>
              mkLagClock (lc_now c + Z.max 0 d + Z.of_N (lc_lag c))
                         (lc_lag c) |}.
  intros d c. simpl. lia.
Defined.

Definition world0 (ints : list Z) (floats : list float32) (now : Z)
    (lag : N) : World Script LagClock :=
  mkWorld (mkScript ints floats) (mkLagClock now lag) 0 [].

(** A request as the tracing middleware hands it to the handler. *)
Definition traceA : TraceID :=
  mkTraceID [Byte.x4b; Byte.xf9; Byte.x2f; Byte.x35; Byte.x77; Byte.xb3;
             Byte.x4d; Byte.xa6; Byte.xa3; Byte.xce; Byte.x92; Byte.x9d;
             Byte.x0e; Byte.x0e; Byte.x47; Byte.x36] eq_refl.

Definition spanA : SpanID :=
  mkSpanID [Byte.x00; Byte.xf0; Byte.x67; Byte.xaa; Byte.x0b; Byte.xa9;
            Byte.x02; Byte.xb7] eq_refl.

Definition requestA : Request :=
  mkRequest "GET" (Some (mkSpanContext traceA spanA)).

(** The world of a successful request: draws of 50 and 70 for the
    pauses, failure draw one half, clock at 1000 with no lag. *)
Definition worldA : World Script LagClock :=
  world0 [50; 70] [F32 1 148] 1000 0.

(** The world of a failed request: failure draw one eighth, clock lag
    of 3 nanoseconds per sleep. *)
Definition worldB : World Script LagClock :=
  world0 [50; 70] [F32 1 146] 1000 3.

(** The calls a handler makes from a fresh world, or [None] when it
    panics. *)
Definition calls_of (h : M Script LagClock unit)
    (w : World Script LagClock) : option (list Call) :=
  match h w with
  | Some (_, w') => Some (w_calls w')
  | None => None
  end.

End Scripted.

(** ** Facts about the run time *)

Section GoFacts.

Lemma hex_EncodeToString_length (bs : list Byte.byte) :
  String.length (hex_EncodeToString bs) = (2 * length bs)%nat.
Proof.
  induction bs as [|b bs IH]; simpl; [reflexivity|].
  rewrite IH. lia.
Qed.

Lemma TraceID_String_length (t : TraceID) :
  String.length (TraceID_String t) = 32%nat.
Proof.
  unfold TraceID_String. rewrite hex_EncodeToString_length, (tid_len t).
  reflexivity.
Qed.

Lemma TraceID_String_nonempty (t : TraceID) :
  String.eqb (TraceID_String t) "" = false.
Proof.
  pose proof (TraceID_String_length t) as Hlen.
  destruct (TraceID_String t); [discriminate Hlen | reflexivity].
Qed.

Lemma exemplar_fits (t : TraceID) :
  Nat.leb (exemplar_runes [("traceID", TraceID_String t)])
          ExemplarMaxRunes = true.
Proof.
  unfold exemplar_runes. cbn [fold_right fst snd].
  rewrite TraceID_String_length. reflexivity.
Qed.

Lemma int64_wrap_small (z : Z) :
  minInt64 <= z <= maxInt64 -> int64_wrap z = z.
Proof.
  unfold int64_wrap, minInt64, maxInt64. intros Hz.
  rewrite Z.mod_small; lia.
Qed.

Lemma Duration_mul_Millisecond (n : Z) :
  0 <= n < 1000 -> Duration_mul n Millisecond = n * 1000000.
Proof.
  intros Hn. unfold Duration_mul.
  change Millisecond with 1000000.
  rewrite (int64_wrap_small n) by (unfold minInt64, maxInt64; lia).
  apply int64_wrap_small. unfold minInt64, maxInt64. lia.
Qed.

Lemma Milliseconds_Duration_mul (n : Z) :
  0 <= n < 1000 -> Milliseconds (Duration_mul n Millisecond) = n.
Proof.
  intros Hn. rewrite Duration_mul_Millisecond by exact Hn.
  unfold Milliseconds. apply Z.quot_mul. lia.
Qed.

(** The [float32] nearest to one fifth: the constant is off by less
    than half a unit in the last place, [2^-27]. *)
Lemma float32_0_2_nearest :
  (Qabs (float32_Q float32_0_2 - (1 # 5)) < 1 # (2 ^ 27))%Q.
Proof. vm_compute. reflexivity. Qed.

(** Comparing a [float32] with the constant decides whether its exact
    value is below one fifth. *)
Lemma float32_lt_0_2_iff (f : float32) :
  float32_valid f ->
  float32_lt f float32_0_2 = true <-> (float32_Q f < 1 # 5)%Q.
Proof.
  intros [[Hm0 Hm1] [Hs0 Hs1]].
  unfold float32_lt, float32_Q, Qlt. cbn [Qnum Qden].
  rewrite Z.ltb_lt.
  change (float32_scaled float32_0_2) with (13421773 * 2 ^ 123).
  change (Z.pos (Z.to_pos (2 ^ 149))) with (67108864 * 2 ^ 123).
  unfold float32_scaled.
  assert (HP : 0 < 2 ^ 122) by (apply Z.pow_pos_nonneg; lia).
  assert (Hhalf : 2 ^ 123 = 2 * 2 ^ 122) by reflexivity.
  destruct (Z_le_gt_dec 123 (shift f)) as [Hbig|Hsmall].
  - (* the value is a multiple of 2^-26 *)
    assert (E : 2 ^ shift f = 2 ^ (shift f - 123) * 2 ^ 123).
    { rewrite <- Z.pow_add_r by lia. f_equal. lia. }
    assert (K : 0 < 2 ^ (shift f - 123)) by (apply Z.pow_pos_nonneg; lia).
    rewrite E, Hhalf.
    generalize dependent (2 ^ (shift f - 123)). intros k _ K.
    generalize dependent (2 ^ 122). intros P HP _.
    replace (mant f * (k * (2 * P))) with (mant f * k * (2 * P)) by ring.
    replace (mant f * k * (2 * P) * 5) with (mant f * k * 5 * (2 * P))
      by ring.
    replace (1 * (67108864 * (2 * P))) with (67108864 * (2 * P)) by ring.
    rewrite <- !Z.mul_lt_mono_pos_r by lia. lia.
  - (* the value is below 2^-3 *)
    assert (Hle : 2 ^ shift f <= 2 ^ 122) by (apply Z.pow_le_mono_r; lia).
    assert (Hpos : 0 < 2 ^ shift f) by (apply Z.pow_pos_nonneg; lia).
    rewrite Hhalf.
    generalize dependent (2 ^ shift f). intros x Hle Hpos.
    generalize dependent (2 ^ 122). intros P HP _ Hle.
    split; intros _; nia.
Qed.

End GoFacts.

(** ** The runs of the handlers *)

Section Runs.

Context {R C : Type} `{RandSource R} `{Clock C}.

Lemma App_workHandler_run (exemplars : bool) (r : Request)
    (w : World R C) :
  exists n m f rs',
    App.draws (w_rand w) n m f rs' /\
    0 <= n < 400 /\ 0 <= m < 200 /\ float32_valid f /\
    runs (App.workHandler exemplars r) w
      (App.work_calls exemplars r (w_spans w)
         (Duration_mul n Millisecond) (Duration_mul m Millisecond)
         (float32_lt f float32_0_2) (App.elapsed (w_clock w) n m)).
Proof.
  destruct (rand_Intn_range 400 (w_rand w)) as (n & r1 & E1 & Hn); [lia|].
  destruct (rand_Intn_range 200 r1) as (m & r2 & E2 & Hm); [lia|].
  destruct (rand_Float32 r2) as [f r3] eqn:E3.
  pose proof (rand_Float32_range r2) as [Hf _]. rewrite E3 in Hf.
  exists n, m, f, r3.
  split; [exists r1, r2; auto|]. do 3 (split; [assumption|]).
  unfold runs, App.workHandler, App.work_calls, App.elapsed.
  unfold bind, Now, Tracer_Start, Intn, Sleep, Span_End, Float32, Since,
    emit. cbn [w_rand w_clock w_spans w_calls].
  rewrite E1. cbn [w_rand w_clock w_spans w_calls].
  rewrite E2. cbn [w_rand w_clock w_spans w_calls].
  rewrite E3. cbn [w_rand w_clock w_spans w_calls].
  rewrite TraceID_String_nonempty.
  unfold Logger_Error, Logger_Info, Logger_Warn, Logger_log, http_Error,
    WriteHeader, Write, WithLabelValues, ObserveWithExemplar, Observe,
    emit, bind, ret, App.outcome_entry, App.exemplar_entry,
    App.request_logger, App.status_of.
  rewrite exemplar_fits.
  destruct (float32_lt f float32_0_2), exemplars;
    cbn -[Itoa TraceID_String SpanID_String Duration_mul Time_Sub
          String.append];
    (exists tt; eexists; split; [reflexivity|]);
    cbn [w_calls]; rewrite <- !app_assoc; reflexivity.
Qed.

Lemma Plain_workHandler_run (r : Request) (w : World R C) :
  exists n f rs',
    Plain.draws (w_rand w) n f rs' /\
    0 <= n < 500 /\ float32_valid f /\
    runs (Plain.workHandler r) w
      (Plain.work_calls (Duration_mul n Millisecond)
         (float32_lt f float32_0_2)).
Proof.
  destruct (rand_Intn_range 500 (w_rand w)) as (n & r1 & E1 & Hn); [lia|].
  destruct (rand_Float32 r1) as [f r2] eqn:E2.
  pose proof (rand_Float32_range r1) as [Hf _]. rewrite E2 in Hf.
  exists n, f, r2.
  split; [exists r1; auto|]. do 2 (split; [assumption|]).
  unfold runs, Plain.workHandler, Plain.work_calls.
  unfold bind, Intn, Sleep, Float32, Printf, http_Error, WriteHeader,
    Write, emit.
  cbn [w_rand w_clock w_spans w_calls]. rewrite E1.
  cbn [w_rand w_clock w_spans w_calls]. rewrite E2.
  destruct (float32_lt f float32_0_2);
    cbn -[Duration_mul String.append];
    (exists tt; eexists; split; [reflexivity|]);
    cbn [w_calls]; rewrite <- !app_assoc; reflexivity.
Qed.

Lemma App_healthzHandler_run (r : Request) (w : World R C) :
  runs (App.healthzHandler r) w [CWriteHeader StatusOK; CWrite "OK"].
Proof.
  exists tt. eexists. split; [reflexivity|].
  cbn [w_calls]. rewrite <- app_assoc. reflexivity.
Qed.

Lemma Plain_healthzHandler_run (r : Request) (w : World R C) :
  runs (Plain.healthzHandler r) w [CWriteHeader StatusOK; CWrite "OK"].
Proof.
  exists tt. eexists. split; [reflexivity|].
  cbn [w_calls]. rewrite <- app_assoc. reflexivity.
Qed.

(** *** Readings of the calls of a run *)

Lemma App_outcome_latency_ms (r : Request) (latency : Duration)
    (failed : bool) :
  Attr_get "latency_ms" (le_attrs (App.outcome_entry r latency failed))
  = Some (VInt (Milliseconds latency)).
Proof. destruct failed; reflexivity. Qed.

Section Readings.

Variables (exemplars : bool) (r : Request) (h : nat).
Variables (latency pause : Duration) (failed : bool) (d : Duration).

Let cs := App.work_calls exemplars r h latency pause failed d.

Lemma App_status :
  rs_status (Response_of cs) = App.status_of failed.
Proof. subst cs. destruct failed; reflexivity. Qed.

Lemma App_log_entries :
  log_entries cs =
    [App.outcome_entry r latency failed;
     App.exemplar_entry r exemplars d].
Proof. subst cs. destruct failed; reflexivity. Qed.

Lemma App_observations :
  observations cs =
    [([req_Method r; Itoa (App.status_of failed)], Seconds d,
      if exemplars
      then Some [("traceID",
                  TraceID_String
                    (sc_TraceID (SpanFromContext (req_Context r))))]
      else None)].
Proof. subst cs. destruct failed; reflexivity. Qed.

Lemma App_Histograms_after (hs : Histograms) :
  Histograms_after cs hs =
    hist_observe [req_Method r; Itoa (App.status_of failed)]
      (Seconds d,
       if exemplars
       then Some [("traceID",
                   TraceID_String
                     (sc_TraceID (SpanFromContext (req_Context r))))]
       else None) hs.
Proof. subst cs. destruct failed; reflexivity. Qed.

Lemma App_sleeps : sleeps cs = [latency; pause].
Proof. subst cs. destruct failed; reflexivity. Qed.


Lemma App_span_ends : span_ends cs = [h; S h].
Proof. subst cs. destruct failed; reflexivity. Qed.

End Readings.

(** A handler makes one list of calls only. *)
Lemma runs_functional {A} (h : M R C A) (w : World R C)
    (cs cs' : list Call) :
  runs h w cs -> runs h w cs' -> cs = cs'.
Proof.
  intros (a & w1 & E1 & C1) (a' & w2 & E2 & C2).
  rewrite E1 in E2. injection E2 as _ <-.
  rewrite C1 in C2. apply app_inv_head in C2. exact C2.
Qed.

End Runs.

(** ** Properties of the request pipeline *)

Section Properties.

Context {R C : Type} `{RandSource R} `{Clock C}.

Lemma hist_count_observe (lvs : list string) (s : Sample)
    (h : Histograms) :
  hist_count (hist_observe lvs s h) lvs = S (hist_count h lvs).
Proof.
  unfold hist_count, hist_observe, hist_samples.
  rewrite lookup_insert_eq. simpl. rewrite length_app.
  cbn [length]. lia.
Qed.

Lemma hist_count_observe_other (lvs lvs' : list string) (s : Sample)
    (h : Histograms) :
  lvs' <> lvs ->
  hist_count (hist_observe lvs s h) lvs' = hist_count h lvs'.
Proof.
  intros Hne. unfold hist_count, hist_observe, hist_samples.
  rewrite lookup_insert_ne by congruence. reflexivity.
Qed.

(** Opens one run of the instrumented handler: names what the random
    source returned and replaces the run by its list of calls. *)
Ltac app_run ex r w :=
  let n := fresh "n" in
  let m := fresh "m" in
  let f := fresh "f" in
  let rs' := fresh "rs'" in
  destruct (App_workHandler_run ex r w)
    as (n & m & f & rs' & Hdraws & Hn & Hm & Hf & Hrun).

Ltac plain_run r w :=
  let n := fresh "n" in
  let f := fresh "f" in
  let rs' := fresh "rs'" in
  destruct (Plain_workHandler_run r w)
    as (n & f & rs' & Hdraws & Hn & Hf & Hrun).

(** C1.  With exemplar support present, every structured log entry of
    a [/work] request carries under [trace_id] the trace identifier of
    the request's root span, and the one histogram observation of the
    request carries that same identifier as its exemplar. *)
Theorem log_trace_id_is_exemplar_trace_id (r : Request)
    (w : World R C) :
  let traceID :=
    TraceID_String (sc_TraceID (SpanFromContext (req_Context r))) in
  exists cs,
    runs (App.workHandler true r) w cs /\
    log_entries cs <> [] /\
    (forall e, In e (log_entries cs) ->
       Attr_get "trace_id" (le_attrs e) = Some (VString traceID)) /\
    exists lvs v,
      observations cs = [(lvs, v, Some [("traceID", traceID)])].
Proof.
  intros traceID. app_run true r w.
  eexists. split; [exact Hrun|].
  unfold App.work_calls, App.outcome_entry, App.exemplar_entry.
  destruct (float32_lt f float32_0_2);
    cbn -[Itoa TraceID_String SpanID_String Duration_mul String.append];
    (split; [discriminate|]);
    (split; [intros e [<-|[<-|[]]]; reflexivity|]);
    eexists; eexists; reflexivity.
Qed.

(** C2.  Every [/work] request, in both services, gets exactly one
    response: status 500 with body "Internal Server Error" and a line
    feed when the failure draw is below the threshold, status 200 with
    body "Work completed" and a line feed otherwise.  [/healthz] always
    answers 200 with body "OK". *)
Theorem work_and_healthz_responses :
  (forall exemplars r (w : World R C),
     exists n m f rs' cs,
       App.draws (w_rand w) n m f rs' /\
       runs (App.workHandler exemplars r) w cs /\
       if float32_lt f float32_0_2
       then responds 500 ("Internal Server Error" ++ LF) cs
       else responds 200 ("Work completed" ++ LF) cs) /\
  (forall r (w : World R C),
     exists n f rs' cs,
       Plain.draws (w_rand w) n f rs' /\
       runs (Plain.workHandler r) w cs /\
       if float32_lt f float32_0_2
       then responds 500 ("Internal Server Error" ++ LF) cs
       else responds 200 ("Work completed" ++ LF) cs) /\
  (forall r (w : World R C),
     exists cs, runs (App.healthzHandler r) w cs /\ responds 200 "OK" cs) /\
  (forall r (w : World R C),
     exists cs, runs (Plain.healthzHandler r) w cs /\ responds 200 "OK" cs).
Proof.
  repeat split.
  - intros ex r w. app_run ex r w.
    exists n, m, f, rs'. eexists. split; [exact Hdraws|].
    split; [exact Hrun|].
    unfold App.work_calls.
    destruct (float32_lt f float32_0_2); repeat split.
  - intros r w. plain_run r w.
    exists n, f, rs'. eexists. split; [exact Hdraws|].
    split; [exact Hrun|].
    unfold Plain.work_calls.
    destruct (float32_lt f float32_0_2); repeat split.
  - intros r w. eexists. split; [apply App_healthzHandler_run|].
    repeat split.
  - intros r w. eexists. split; [apply Plain_healthzHandler_run|].
    repeat split.
Qed.

(** C5.  Within one [/work] request the span calls are balanced and
    strictly last-in first-out: run against any stack of spans already
    open (the root span of the tracing middleware, say), every end
    closes the span on top of the stack and the stack is left as it was
    found; there are as many ends as starts.  The plain service makes
    no span call at all. *)
Theorem span_calls_balanced_lifo :
  (forall exemplars r (w : World R C),
     exists cs,
       runs (App.workHandler exemplars r) w cs /\
       length (span_ends cs) = length (span_starts cs) /\
       forall open, span_stack open cs = Some open) /\
  (forall r (w : World R C),
     exists cs,
       runs (Plain.workHandler r) w cs /\
       length (span_ends cs) = length (span_starts cs) /\
       forall open, span_stack open cs = Some open).
Proof.
  split.
  - intros ex r w. app_run ex r w.
    eexists. split; [exact Hrun|].
    unfold App.work_calls.
    destruct (float32_lt f float32_0_2).
    + split; [reflexivity|]. intros open.
      cbn [span_stack app]. rewrite !Nat.eqb_refl. reflexivity.
    + split; [reflexivity|]. intros open.
      cbn [span_stack app]. rewrite !Nat.eqb_refl. reflexivity.
  - intros r w. plain_run r w.
    eexists. split; [exact Hrun|].
    unfold Plain.work_calls.
    destruct (float32_lt f float32_0_2); split; reflexivity.
Qed.

(** C7.  A [/work] request fails exactly when the [float32] drawn from
    the random source is, as an exact number, below one fifth.  The
    handler never panics; a failure is answered with status 500 and
    comes with an entry at level ERROR in the instrumented service and
    with a printed line starting with "ERROR:" in the plain one; a
    success is answered with status 200 and logs no error. *)
Theorem failure_iff_draw_below_one_fifth :
  (forall exemplars r (w : World R C),
     exists n m f rs' cs,
       App.draws (w_rand w) n m f rs' /\
       runs (App.workHandler exemplars r) w cs /\
       (rs_status (Response_of cs) = StatusInternalServerError <->
        (float32_Q f < 1 # 5)%Q) /\
       (rs_status (Response_of cs) = StatusOK <->
        ~ (float32_Q f < 1 # 5)%Q) /\
       ((exists e, In e (log_entries cs) /\ le_level e = LevelError) <->
        (float32_Q f < 1 # 5)%Q)) /\
  (forall r (w : World R C),
     exists n f rs' cs,
       Plain.draws (w_rand w) n f rs' /\
       runs (Plain.workHandler r) w cs /\
       (rs_status (Response_of cs) = StatusInternalServerError <->
        (float32_Q f < 1 # 5)%Q) /\
       (rs_status (Response_of cs) = StatusOK <->
        ~ (float32_Q f < 1 # 5)%Q) /\
       (printed cs =
          [(("ERROR: Request failed after %v" ++ LF)%string,
            Duration_mul n Millisecond)] <->
        (float32_Q f < 1 # 5)%Q)).
Proof.
  split.
  - intros ex r w. app_run ex r w.
    exists n, m, f, rs'. eexists. split; [exact Hdraws|].
    split; [exact Hrun|].
    rewrite App_status, App_log_entries.
    pose proof (float32_lt_0_2_iff f Hf) as Hiff.
    destruct (float32_lt f float32_0_2).
    + assert (HQ : (float32_Q f < 1 # 5)%Q) by (apply Hiff; reflexivity).
      split; [split; [intros _; exact HQ | reflexivity]|].
      split; [split; [discriminate | intros Hn'; contradiction]|].
      split; [intros _; exact HQ|]. intros _.
      eexists. split; [left; reflexivity|reflexivity].
    + assert (HQ : ~ (float32_Q f < 1 # 5)%Q).
      { intros HQ. apply Hiff in HQ. discriminate HQ. }
      split; [split; [discriminate | intros HQ'; contradiction]|].
      split; [split; [intros _; exact HQ | reflexivity]|].
      split; [|intros HQ'; contradiction].
      intros (e & [<-|[<-|[]]] & Hlev); [discriminate Hlev|].
      destruct ex; discriminate Hlev.
  - intros r w. plain_run r w.
    exists n, f, rs'. eexists. split; [exact Hdraws|].
    split; [exact Hrun|].
    pose proof (float32_lt_0_2_iff f Hf) as Hiff.
    unfold Plain.work_calls.
    destruct (float32_lt f float32_0_2).
    + assert (HQ : (float32_Q f < 1 # 5)%Q) by (apply Hiff; reflexivity).
      split; [split; [intros _; exact HQ | reflexivity]|].
      split; [split; [discriminate | intros Hn'; contradiction]|].
      split; [intros _; exact HQ | reflexivity].
    + assert (HQ : ~ (float32_Q f < 1 # 5)%Q).
      { intros HQ. apply Hiff in HQ. discriminate HQ. }
      split; [split; [discriminate | intros HQ'; contradiction]|].
      split; [split; [intros _; exact HQ | reflexivity]|].
      split; [discriminate | intros HQ'; contradiction].
Qed.

(** C8.  When the metric backend has no exemplar support the handler
    does not panic: it records one plain observation under the request
    method and the response status, so that the sample count of that
    histogram grows by one and no other histogram changes. *)
Theorem observation_without_exemplar_support (r : Request)
    (w : World R C) :
  exists cs,
    runs (App.workHandler false r) w cs /\
    let lvs := [req_Method r; Itoa (rs_status (Response_of cs))] in
    (exists v, observations cs = [(lvs, v, None)]) /\
    forall hs : Histograms,
      hist_count (Histograms_after cs hs) lvs = S (hist_count hs lvs) /\
      forall lvs', lvs' <> lvs ->
        hist_count (Histograms_after cs hs) lvs' = hist_count hs lvs'.
Proof.
  app_run false r w.
  eexists. split; [exact Hrun|].
  rewrite App_status, App_observations.
  split; [eexists; reflexivity|].
  intros hs. rewrite App_Histograms_after.
  split; [apply hist_count_observe|].
  intros lvs' Hne. apply hist_count_observe_other. exact Hne.
Qed.

(** C10.  In the instrumented service the [latency_ms] of the outcome
    entry is the first draw alone, the pause slept inside
    "simulate_work", while the observed duration is the time elapsed
    from the start of the handler to the observation, which spans both
    pauses: it is at least their sum, hence larger than the logged
    latency whenever the second pause is not zero. *)
Theorem logged_latency_and_observed_duration (exemplars : bool)
    (r : Request) (w : World R C) :
  exists n m f rs' cs,
    App.draws (w_rand w) n m f rs' /\
    runs (App.workHandler exemplars r) w cs /\
    let d := App.elapsed (w_clock w) n m in
    sleeps cs = [n * Millisecond; m * Millisecond] /\
    (exists e rest,
       log_entries cs = e :: rest /\
       Attr_get "latency_ms" (le_attrs e) = Some (VInt n)) /\
    (exists lvs ex, observations cs = [(lvs, Seconds d, ex)]) /\
    n * Millisecond + m * Millisecond <= d /\
    (0 < m -> n < Milliseconds d).
Proof.
  app_run exemplars r w.
  exists n, m, f, rs'. eexists. split; [exact Hdraws|].
  split; [exact Hrun|].
  rewrite App_sleeps, App_log_entries, App_observations.
  assert (Hd : n * Millisecond + m * Millisecond
               <= App.elapsed (w_clock w) n m).
  { unfold App.elapsed, Time_Sub.
    rewrite !Duration_mul_Millisecond by lia.
    pose proof (clock_sleep_at_least (n * 1000000) (w_clock w)) as S1.
    pose proof (clock_sleep_at_least (m * 1000000)
                  (clock_sleep (n * 1000000) (w_clock w))) as S2.
    unfold minInt64, maxInt64.
    change (2 ^ 63) with 9223372036854775808.
    change Millisecond with 1000000. lia. }
  cbv zeta. rewrite !Duration_mul_Millisecond by lia.
  change Millisecond with 1000000 in *.
  split; [reflexivity|].
  split.
  { eexists. eexists. split; [reflexivity|].
    rewrite App_outcome_latency_ms.
    unfold Milliseconds. rewrite Z.quot_mul by lia. reflexivity. }
  split; [eexists; eexists; reflexivity|].
  split; [exact Hd|].
  intros Hm0. unfold Milliseconds.
  assert (n + m <= Z.quot (App.elapsed (w_clock w) n m) 1000000)
    by (apply Z.quot_le_lower_bound; lia).
  lia.
Qed.

(** C3, as the code has it.  The instrumented service emits two
    structured entries per [/work] request.  The first is the outcome
    entry: level ERROR exactly when the response status is 500, INFO
    otherwise, with the keys [trace_id], [span_id], [latency_ms],
    [status] and no other.  The second reports on the exemplar: INFO
    "Attaching exemplar" with exemplar support, WARN without.  The
    plain service emits no structured entry; it prints one line. *)
Theorem outcome_entry_then_exemplar_entry :
  (forall exemplars r (w : World R C),
     exists cs,
       runs (App.workHandler exemplars r) w cs /\
       exists outcome report,
         log_entries cs = [outcome; report] /\
         (le_level outcome = LevelError /\
          rs_status (Response_of cs) = StatusInternalServerError \/
          le_level outcome = LevelInfo /\
          rs_status (Response_of cs) = StatusOK) /\
         le_keys outcome =
           ["trace_id"; "span_id"; "latency_ms"; "status"] /\
         Attr_get "status" (le_attrs outcome) =
           Some (VInt (rs_status (Response_of cs))) /\
         le_msg report =
           (if exemplars then "Attaching exemplar"
            else "Exemplar not supported or traceID empty") /\
         le_level report =
           (if exemplars then LevelInfo else LevelWarn) /\
         le_keys report =
           (if exemplars
            then ["trace_id"; "span_id"; "traceID"; "duration"]
            else ["trace_id"; "span_id"; "traceID"; "ok"])) /\
  (forall r (w : World R C),
     exists cs,
       runs (Plain.workHandler r) w cs /\
       log_entries cs = [] /\
       length (printed cs) = 1%nat).
Proof.
  split.
  - intros ex r w. app_run ex r w.
    eexists. split; [exact Hrun|].
    rewrite App_status, App_log_entries.
    eexists. eexists. split; [reflexivity|].
    destruct (float32_lt f float32_0_2), ex; cbn; intuition reflexivity.
  - intros r w. plain_run r w.
    eexists. split; [exact Hrun|].
    unfold Plain.work_calls.
    destruct (float32_lt f float32_0_2); split; reflexivity.
Qed.

(** C4, as the code has it.  The outcome entry is logged before the
    status and the body are written; the exemplar entry and the
    histogram observation come after the response has been written,
    the observation last. *)
Theorem outcome_logged_before_response_observed_after
    (exemplars : bool) (r : Request) (w : World R C) :
  exists cs,
    runs (App.workHandler exemplars r) w cs /\
    exists i j j' l k : nat,
      index_of is_log cs = Some i /\
      index_of is_response_write cs = Some j /\
      last_index_of is_response_write cs = Some j' /\
      last_index_of is_log cs = Some l /\
      index_of is_observe cs = Some k /\
      last_index_of is_observe cs = Some k /\
      (i < j <= j')%nat /\ (j' < l < k)%nat /\
      S k = length cs.
Proof.
  app_run exemplars r w.
  eexists. split; [exact Hrun|].
  unfold App.work_calls.
  destruct (float32_lt f float32_0_2);
    do 5 eexists; cbn;
    repeat (split; [reflexivity|]); lia.
Qed.

(** C6, as the code has it.  The simulated latency is a whole number
    of milliseconds below the bound, [rand.Intn(400)] in the
    instrumented service and [rand.Intn(500)] in the plain one, and the
    handler sleeps for it.  The instrumented handler then sleeps a
    second time, for [rand.Intn(200)] milliseconds; the plain handler
    sleeps once. *)
Theorem simulated_delays :
  (forall exemplars r (w : World R C),
     exists n m f rs' cs,
       App.draws (w_rand w) n m f rs' /\
       runs (App.workHandler exemplars r) w cs /\
       sleeps cs = [n * Millisecond; m * Millisecond] /\
       0 <= n < 400 /\ 0 <= m < 200) /\
  (forall r (w : World R C),
     exists n f rs' cs,
       Plain.draws (w_rand w) n f rs' /\
       runs (Plain.workHandler r) w cs /\
       sleeps cs = [n * Millisecond] /\
       0 <= n < 500).
Proof.
  split.
  - intros ex r w. app_run ex r w.
    exists n, m, f, rs'. eexists. split; [exact Hdraws|].
    split; [exact Hrun|].
    rewrite App_sleeps, !Duration_mul_Millisecond by lia.
    auto.
  - intros r w. plain_run r w.
    exists n, f, rs'. eexists. split; [exact Hdraws|].
    split; [exact Hrun|].
    unfold Plain.work_calls.
    rewrite Duration_mul_Millisecond by lia.
    destruct (float32_lt f float32_0_2); auto.
Qed.

(** C9, as the code has it.  The instrumented handler starts with two
    child spans of the request's span, "simulate_work" and then
    "db_cache_lookup", each ended right after the one sleep it
    brackets; nothing after them starts or ends a span or sleeps.  The
    plain handler starts and ends no span. *)
Theorem child_spans_of_work :
  (forall exemplars r (w : World R C),
     exists n m f rs' cs rest,
       App.draws (w_rand w) n m f rs' /\
       runs (App.workHandler exemplars r) w cs /\
       let h := w_spans w in
       cs =
         [CSpanStart "app" "simulate_work" (req_Context r) h;
          CSleep (n * Millisecond);
          CSpanEnd h;
          CSpanStart "app" "db_cache_lookup" (req_Context r) (S h);
          CSleep (m * Millisecond);
          CSpanEnd (S h)] ++ rest /\
       span_starts rest = [] /\ span_ends rest = [] /\
       sleeps rest = []) /\
  (forall r (w : World R C),
     exists cs,
       runs (Plain.workHandler r) w cs /\
       span_starts cs = [] /\ span_ends cs = []).
Proof.
  split.
  - intros ex r w. app_run ex r w.
    exists n, m, f, rs'. eexists. eexists. split; [exact Hdraws|].
    split; [exact Hrun|].
    unfold App.work_calls.
    rewrite !Duration_mul_Millisecond by lia.
    cbv zeta. split; [reflexivity|].
    destruct (float32_lt f float32_0_2); repeat split.
  - intros r w. plain_run r w.
    eexists. split; [exact Hrun|].
    unfold Plain.work_calls.
    destruct (float32_lt f float32_0_2); split; reflexivity.
Qed.

End Properties.

(** ** Runs on the scripted collaborators *)

Section Examples.

Import Scripted.

(** A request whose latency draw is 50 and whose failure draw is one
    half: status 200, the success body, an INFO outcome entry with
    [latency_ms] 50, and one observation labelled "200" that spans both
    pauses, 120 milliseconds. *)
Example work_succeeds_after_50ms :
  exists cs,
    calls_of (App.workHandler true requestA) worldA = Some cs /\
    Response_of cs = mkResponse true 200 [] ("Work completed" ++ LF) /\
    head (log_entries cs) =
      Some (mkLogEntry LevelInfo "request succeeded"
              [("trace_id", VString "4bf92f3577b34da6a3ce929d0e0e4736");
               ("span_id", VString "00f067aa0ba902b7");
               ("latency_ms", VInt 50); ("status", VInt 200)]) /\
    observations cs =
      [(["GET"; "200"], Seconds (120 * Millisecond),
        Some [("traceID", "4bf92f3577b34da6a3ce929d0e0e4736")])].
Proof.
  eexists. split; [vm_compute; reflexivity|].
  repeat split.
Qed.

(** A request whose failure draw is one eighth, on a backend without
    exemplar support and a clock that overshoots each sleep by 3
    nanoseconds: status 500, an ERROR outcome entry, a plain
    observation labelled "500". *)
Example work_fails_without_exemplars :
  exists cs,
    calls_of (App.workHandler false requestA) worldB = Some cs /\
    rs_status (Response_of cs) = 500 /\
    rs_body (Response_of cs) = ("Internal Server Error" ++ LF)%string /\
    map le_level (log_entries cs) = [LevelError; LevelWarn] /\
    observations cs =
      [(["GET"; "500"], Seconds (120 * Millisecond + 6), None)].
Proof.
  eexists. split; [vm_compute; reflexivity|].
  repeat split.
Qed.

(** The plain service on the same failing draws. *)
Example plain_work_fails :
  calls_of (Plain.workHandler requestA) worldB =
    Some [CSleep (50 * Millisecond);
          CPrintf ("ERROR: Request failed after %v" ++ LF)
                  (50 * Millisecond);
          CSetHeader "Content-Type" "text/plain; charset=utf-8";
          CSetHeader "X-Content-Type-Options" "nosniff";
          CWriteHeader 500;
          CWrite ("Internal Server Error" ++ LF)].
Proof. vm_compute. reflexivity. Qed.

(** C3 fails as stated: the instrumented handler emits two structured
    entries for one request, and the plain handler none. *)
Lemma two_log_entries_per_request :
  (exists cs,
     calls_of (App.workHandler true requestA) worldA = Some cs /\
     length (log_entries cs) = 2%nat /\
     ~ (exists e, log_entries cs = [e])) /\
  (exists cs,
     calls_of (Plain.workHandler requestA) worldA = Some cs /\
     log_entries cs = []).
Proof.
  split; eexists; (split; [vm_compute; reflexivity|]).
  - split; [reflexivity|]. intros [e He]. discriminate He.
  - reflexivity.
Qed.

(** C4 fails as stated: the body is written at position 7 of the
    calls, before the observation at position 9 is made. *)
Lemma response_written_before_observation :
  exists cs,
    calls_of (App.workHandler true requestA) worldA = Some cs /\
    cs !! 7%nat = Some (CWrite ("Work completed" ++ LF)) /\
    (exists lvs v ex, cs !! 9%nat = Some (CObserve lvs v ex)) /\
    ~ (forall (i j : nat) c c',
         cs !! i = Some c -> cs !! j = Some c' ->
         is_observe c = true -> is_response_write c' = true ->
         (i < j)%nat).
Proof.
  eexists. split; [vm_compute; reflexivity|].
  split; [reflexivity|]. split; [do 3 eexists; reflexivity|].
  intros Hbefore.
  specialize (Hbefore 9%nat 7%nat _ _ eq_refl eq_refl eq_refl eq_refl).
  lia.
Qed.

(** C6 fails as stated: the instrumented handler sleeps twice, for 50
    and then for 70 milliseconds, not only for the latency of 50. *)
Lemma second_simulated_delay :
  exists cs,
    calls_of (App.workHandler true requestA) worldA = Some cs /\
    sleeps cs = [50 * Millisecond; 70 * Millisecond] /\
    ~ (exists d, sleeps cs = [d]).
Proof.
  eexists. split; [vm_compute; reflexivity|].
  split; [reflexivity|]. intros [d Hd]. discriminate Hd.
Qed.

(** C9 fails as stated: the plain handler opens no span. *)
Lemma plain_handler_opens_no_span :
  exists cs,
    calls_of (Plain.workHandler requestA) worldA = Some cs /\
    span_starts cs = [] /\ span_ends cs = [] /\
    length (span_starts cs) <> 2%nat.
Proof.
  eexists. split; [vm_compute; reflexivity|].
  repeat split. discriminate.
Qed.

End Examples.

(** ** Start-up *)

Section StartupFacts.

Import Startup.

Lemma record_all_app (cs cs' : list SysCall) (st : Process) :
  record_all cs' (record_all cs st) = record_all (cs ++ cs') st.
Proof. unfold record_all. cbn. rewrite <- app_assoc. reflexivity. Qed.

(** One run of [initOTel], by the first constructor that fails. *)
Lemma initOTel_run (host : Host) (st : Process) :
  initOTel host st =
    match resource_err host with
    | Some e =>
        (Exited 1,
         record_all [SResourceNew (mkResource "sample-app" "1.0.0");
                     SFatalf "failed to create resource: %v" e] st)
    | None =>
        match trace_exporter_err host with
        | Some e =>
            (Exited 1,
             record_all (firstn 3 (init_calls host) ++
                         [SFatalf "failed to create trace exporter: %v" e])
                        st)
        | None =>
            match metric_exporter_err host with
            | Some e =>
                (Exited 1,
                 record_all (firstn 5 (init_calls host) ++
                             [SFatalf "failed to create metric exporter: %v" e])
                            st)
            | None => (Returned (shutdown_of host), record_all (init_calls host) st)
            end
        end
    end.
Proof.
  unfold initOTel, bind, resource_New, Getenv, otlptracegrpc_New,
    otlpmetricgrpc_New, log_Fatalf, call, ret, record, record_all,
    init_calls, provider_of, shutdown_of, otelEndpoint_of.
  destruct (resource_err host), (trace_exporter_err host),
    (metric_exporter_err host); cbn; rewrite <- ?app_assoc; reflexivity.
Qed.

Lemma init_succeeds_inv (host : Host) :
  init_fails host = false ->
  resource_err host = None /\ trace_exporter_err host = None /\
  metric_exporter_err host = None.
Proof.
  unfold init_fails.
  destruct (resource_err host), (trace_exporter_err host),
    (metric_exporter_err host); cbn; intros Hf;
    try discriminate Hf; auto.
Qed.

Lemma App_main_started (host : Host) :
  init_fails host = false ->
  App_main host fresh =
    (listen_outcome host,
     mkProcess
       (init_calls host ++
        [SHandle "/healthz" (otelhttp_NewHandler healthzHandler "healthz");
         SHandle "/work" (otelhttp_NewHandler workHandler "work");
         SMustRegister "http_request_duration_seconds";
         SHandle "/metrics" (promhttp_HandlerFor true);
         SPrintln "Starting server on :8080"] ++ listen_calls host)
       (<["/metrics" := promhttp_HandlerFor true]>
          (<["/work" := otelhttp_NewHandler workHandler "work"]>
             (<["/healthz" := otelhttp_NewHandler healthzHandler "healthz"]>
                ∅)))
       {["http_request_duration_seconds"]}).
Proof.
  intros Hok. apply init_succeeds_inv in Hok as (Hr & Ht & Hm).
  unfold App_main, bind at 1. rewrite initOTel_run, Hr, Ht, Hm.
  unfold listen_outcome, listen_calls.
  unfold init_calls, shutdown_of, provider_of.
  generalize (otelEndpoint_of host) as ep. intros ep.
  unfold with_defer, handle_routes, bind, ListenAndServe.
  destruct (listen_err host); vm_compute; reflexivity.
Qed.

Lemma Plain_main_started (host : Host) :
  init_fails host = false ->
  Plain_main host fresh =
    (listen_outcome host,
     mkProcess
       (init_calls host ++
        [SHandle "/healthz" (otelhttp_NewHandler healthzHandler "healthz");
         SHandle "/work" (otelhttp_NewHandler workHandler "work");
         SPrintln "Starting server on :8080"] ++ listen_calls host)
       (<["/work" := otelhttp_NewHandler workHandler "work"]>
          (<["/healthz" := otelhttp_NewHandler healthzHandler "healthz"]>
             ∅))
       ∅).
Proof.
  intros Hok. apply init_succeeds_inv in Hok as (Hr & Ht & Hm).
  unfold Plain_main, bind at 1. rewrite initOTel_run, Hr, Ht, Hm.
  unfold listen_outcome, listen_calls.
  unfold init_calls, shutdown_of, provider_of.
  generalize (otelEndpoint_of host) as ep. intros ep.
  unfold with_defer, handle_routes, bind, ListenAndServe.
  destruct (listen_err host); vm_compute; reflexivity.
Qed.

(** When [initOTel] exits, so does [main], in the same state. *)
Lemma main_init_exit (host : Host) (st st' : Process) (code : Z) :
  initOTel host st = (Exited code, st') ->
  App_main host st = (Exited code, st') /\
  Plain_main host st = (Exited code, st').
Proof.
  intros Hinit. unfold App_main, Plain_main, bind at 1 7.
  rewrite Hinit. split; reflexivity.
Qed.

Lemma failed_init_exits_before_serving_aux (host : Host) :
  init_fails host = true ->
  exists st',
    App_main host fresh = (Exited 1, st') /\
    Plain_main host fresh = (Exited 1, st') /\
    List.filter is_shutdown (p_calls st') = [].
Proof.
  intros Hfail.
  pose proof (initOTel_run host fresh) as Hinit.
  unfold init_fails in Hfail.
  destruct (resource_err host) as [e1|] eqn:E1;
    [|destruct (trace_exporter_err host) as [e2|] eqn:E2;
      [|destruct (metric_exporter_err host) as [e3|] eqn:E3;
        [|discriminate Hfail]]];
    destruct (main_init_exit _ _ _ _ Hinit) as [HA HP];
    eexists; (split; [exact HA|]); (split; [exact HP|]); reflexivity.
Qed.

(** X1.  Both exporters are created with the same endpoint: the value
    of the environment variable when it is set and not empty, the
    default collector address otherwise. *)
Theorem exporters_share_the_configured_endpoint (host : Host)
    (st : Process) :
  exists ep out st' cs,
    initOTel host st = (out, st') /\
    p_calls st' = p_calls st ++ cs /\
    (environ host !! "OTEL_EXPORTER_OTLP_ENDPOINT" = None ->
     ep = "otel-collector:4317") /\
    (environ host !! "OTEL_EXPORTER_OTLP_ENDPOINT" = Some EmptyString ->
     ep = "otel-collector:4317") /\
    (forall v, environ host !! "OTEL_EXPORTER_OTLP_ENDPOINT" = Some v ->
               v <> EmptyString -> ep = v) /\
    Forall (eq ep) (exporter_endpoints cs) /\
    (init_fails host = false -> exporter_endpoints cs = [ep; ep]).
Proof.
  exists (otelEndpoint_of host). rewrite initOTel_run.
  assert (Hep :
    (environ host !! "OTEL_EXPORTER_OTLP_ENDPOINT" = None ->
     otelEndpoint_of host = "otel-collector:4317") /\
    (environ host !! "OTEL_EXPORTER_OTLP_ENDPOINT" = Some EmptyString ->
     otelEndpoint_of host = "otel-collector:4317") /\
    (forall v, environ host !! "OTEL_EXPORTER_OTLP_ENDPOINT" = Some v ->
               v <> EmptyString -> otelEndpoint_of host = v)).
  { unfold otelEndpoint_of. repeat split.
    - intros ->. reflexivity.
    - intros ->. reflexivity.
    - intros v -> Hv. cbn. destruct (String.eqb_spec v ""); congruence. }
  destruct Hep as (Hnone & Hempty & Hset).
  unfold init_fails, init_calls.
  destruct (resource_err host), (trace_exporter_err host),
    (metric_exporter_err host);
    do 3 eexists; (split; [reflexivity|]); (split; [reflexivity|]);
    (do 3 (split; [assumption|])); cbn;
    (split; [repeat constructor | intros Hf; try discriminate Hf; reflexivity]).
Qed.

(** X2.  When the resource or one of the exporters cannot be created,
    both services log the failure and exit with status 1 at once: no
    route has been mounted, the server never listens, and a provider
    installed before the failure is not shut down. *)
Theorem failed_init_exits_before_serving (host : Host) :
  init_fails host = true ->
  exists st' fmt e,
    App_main host fresh = (Exited 1, st') /\
    Plain_main host fresh = (Exited 1, st') /\
    last (p_calls st') = Some (SFatalf fmt e) /\
    List.filter is_route (p_calls st') = [] /\
    List.filter is_listen (p_calls st') = [] /\
    List.filter is_shutdown (p_calls st') = [] /\
    p_mux st' = ∅.
Proof.
  intros Hfail.
  pose proof (initOTel_run host fresh) as Hinit.
  unfold init_fails in Hfail.
  destruct (resource_err host) as [e1|] eqn:E1;
    [|destruct (trace_exporter_err host) as [e2|] eqn:E2;
      [|destruct (metric_exporter_err host) as [e3|] eqn:E3;
        [|discriminate Hfail]]];
    destruct (main_init_exit _ _ _ _ Hinit) as [HA HP];
    do 3 eexists; (split; [exact HA|]); (split; [exact HP|]);
    repeat split.
Qed.

Lemma failed_init_exits_before_serving_witness :
  init_fails hostB = true /\
  exists st' fmt e,
    App_main hostB fresh = (Exited 1, st') /\
    Plain_main hostB fresh = (Exited 1, st') /\
    last (p_calls st') = Some (SFatalf fmt e) /\
    List.filter is_route (p_calls st') = [] /\
    List.filter is_listen (p_calls st') = [] /\
    List.filter is_shutdown (p_calls st') = [] /\
    p_mux st' = ∅.
Proof.
  split; [reflexivity|].
  apply (failed_init_exits_before_serving hostB). reflexivity.
Defined.

(** X3.  Started in a fresh process, [main] never returns: it exits
    with status 1 or serves for ever, the latter exactly when start-up
    succeeds and the listener never fails.  Because it can only leave
    through [log.Fatal], the deferred clean-up never runs: no provider
    is ever shut down. *)
Theorem main_never_returns_nor_shuts_down (host : Host) :
  (exists out st',
     App_main host fresh = (out, st') /\
     (out = Exited 1 \/ out = Serving) /\
     (out = Serving <-> init_fails host = false /\ listen_err host = None) /\
     List.filter is_shutdown (p_calls st') = []) /\
  (exists out st',
     Plain_main host fresh = (out, st') /\
     (out = Exited 1 \/ out = Serving) /\
     (out = Serving <-> init_fails host = false /\ listen_err host = None) /\
     List.filter is_shutdown (p_calls st') = []).
Proof.
  destruct (init_fails host) eqn:Hf.
  - destruct (failed_init_exits_before_serving_aux host Hf)
      as (st' & HA & HP & Hsd).
    split; do 2 eexists; (split; [eassumption|]);
      (split; [left; reflexivity|]);
      (split; [split; [discriminate|intros [? _]; discriminate]|]);
      exact Hsd.
  - rewrite (App_main_started host Hf), (Plain_main_started host Hf).
    unfold listen_outcome, listen_calls, init_calls.
    split; do 2 eexists; (split; [reflexivity|]);
      destruct (listen_err host);
      (split; [auto|]);
      (split; [split; [try discriminate; auto
                      |intros [_ ?]; try discriminate; reflexivity]|]);
      reflexivity.
Qed.



(** X5.  A route that is taken already makes [main] panic while it
    mounts its routes: when [/healthz] or [/work] is registered before
    [main] runs and start-up succeeds, both services panic, and this is
    the one case in which the deferred clean-up runs: the tracer
    provider and then the meter provider are shut down, as the last two
    calls.  The server never listens. *)
Theorem taken_route_panics_and_runs_cleanup (host : Host)
    (st : Process) :
  init_fails host = false ->
  is_Some (p_mux st !! "/healthz") \/ is_Some (p_mux st !! "/work") ->
  exists msg sta stp csa csp,
    App_main host st = (Panicked msg, sta) /\
    Plain_main host st = (Panicked msg, stp) /\
    p_calls sta = p_calls st ++ csa /\
    p_calls stp = p_calls st ++ csp /\
    List.filter is_shutdown csa =
      [SShutdownTracer (provider_of host);
       SShutdownMeter (provider_of host)] /\
    List.filter is_shutdown csp = List.filter is_shutdown csa /\
    List.filter is_listen csa = [] /\
    List.filter is_listen csp = [] /\
    (exists pre, csa = pre ++ List.filter is_shutdown csa) /\
    (exists pre, csp = pre ++ List.filter is_shutdown csp).
Proof.
  intros Hok Htaken.
  apply init_succeeds_inv in Hok as (Hr & Ht & Hm).
  unfold App_main, Plain_main, bind at 1 7.
  rewrite initOTel_run, Hr, Ht, Hm.
  unfold with_defer, handle_routes, bind, http_Handle, shutdown_of, call,
    record, record_all, init_calls.
  cbn [p_calls p_mux p_registry String.eqb Ascii.eqb Bool.eqb].
  destruct (p_mux st !! "/healthz") as [h1|] eqn:E1.
  - cbn [p_calls p_mux p_registry].
    do 5 eexists. do 2 (split; [reflexivity|]).
    cbn [p_calls]. rewrite <- !app_assoc.
    do 2 (split; [reflexivity|]).
    cbn. repeat split; eexists [_; _; _; _; _; _]; reflexivity.
  - destruct Htaken as [[? Hh]|[h2 E2]]; [discriminate Hh|].
    cbn [p_calls p_mux p_registry String.eqb Ascii.eqb Bool.eqb].
    rewrite lookup_insert_ne by discriminate. rewrite E2.
    cbn [p_calls p_mux p_registry].
    do 5 eexists. do 2 (split; [reflexivity|]).
    cbn [p_calls]. rewrite <- !app_assoc.
    do 2 (split; [reflexivity|]).
    cbn. repeat split; eexists [_; _; _; _; _; _; _]; reflexivity.
Qed.

Lemma taken_route_panics_and_runs_cleanup_witness :
  init_fails hostA = false /\
  (is_Some (p_mux taken !! "/healthz") \/ is_Some (p_mux taken !! "/work")) /\
  exists msg sta stp,
    App_main hostA taken = (Panicked msg, sta) /\
    Plain_main hostA taken = (Panicked msg, stp).
Proof.
  assert (Ht : is_Some (p_mux taken !! "/healthz") \/
               is_Some (p_mux taken !! "/work")).
  { right. eexists. reflexivity. }
  split; [reflexivity|]. split; [exact Ht|].
  destruct (taken_route_panics_and_runs_cleanup hostA taken eq_refl Ht)
    as (msg & sta & stp & csa & csp & HA & HP & _).
  exists msg, sta, stp. auto.
Defined.

End StartupFacts.

(** ** More on the handlers *)

Section HandlerFacts.

Context {R C : Type} `{RandSource R} `{Clock C}.


Lemma hex_digit_lower (n : N) : is_lower_hex (hex_digit n) = true.
Proof.
  destruct n as [|p]; [reflexivity|].
  repeat (destruct p as [p|p|]; try reflexivity).
Qed.

Lemma hex_EncodeToString_lower (bs : list Byte.byte) :
  lower_hex (hex_EncodeToString bs) = true.
Proof.
  induction bs as [|b bs IH]; [reflexivity|].
  cbn [hex_EncodeToString lower_hex].
  rewrite !hex_digit_lower, IH. reflexivity.
Qed.

Lemma hex_decode_encode (bs : list Byte.byte) :
  hex_decode (hex_EncodeToString bs) = bs.
Proof.
  induction bs as [|b bs IH]; [reflexivity|].
  cbn [hex_EncodeToString hex_decode]. rewrite IH.
  destruct b; reflexivity.
Qed.

(** X6.  The three signals of one [/work] request agree on the
    outcome, with or without exemplar support: the status sent to the
    client (200 or 500), the [status] of the outcome entry and the
    status label of the one histogram observation are the same number,
    and the method label is the request's method. *)
Theorem signals_agree_on_status (exemplars : bool) (r : Request)
    (w : World R C) :
  exists cs status,
    runs (App.workHandler exemplars r) w cs /\
    (status = StatusOK \/ status = StatusInternalServerError) /\
    rs_status (Response_of cs) = status /\
    (exists e rest,
       log_entries cs = e :: rest /\
       Attr_get "status" (le_attrs e) = Some (VInt status)) /\
    exists v ex,
      observations cs = [([req_Method r; Itoa status], v, ex)].
Proof.
  destruct (App_workHandler_run exemplars r w)
    as (n & m & f & rs' & _ & _ & _ & _ & Hrun).
  eexists. exists (App.status_of (float32_lt f float32_0_2)).
  split; [exact Hrun|].
  rewrite App_status, App_log_entries, App_observations.
  split; [destruct (float32_lt f float32_0_2); auto|].
  split; [reflexivity|].
  split; [|do 2 eexists; reflexivity].
  do 2 eexists. split; [reflexivity|].
  destruct (float32_lt f float32_0_2); reflexivity.
Qed.

(** X7.  Whether an exemplar is attached depends on the metric backend
    alone.  The test for an empty trace identifier never fails, since a
    trace identifier prints as 32 digits: the observation carries an
    exemplar exactly when the backend supports exemplars, the WARN entry
    is logged exactly when it does not, and that entry always reports
    [ok] as false. *)
Theorem fallback_only_without_exemplar_support (exemplars : bool)
    (r : Request) (w : World R C) :
  exists cs lvs v ex,
    runs (App.workHandler exemplars r) w cs /\
    observations cs = [(lvs, v, ex)] /\
    (ex = None <-> exemplars = false) /\
    ((exists e, In e (log_entries cs) /\ le_level e = LevelWarn) <->
     exemplars = false) /\
    (forall e, In e (log_entries cs) -> le_level e = LevelWarn ->
               Attr_get "ok" (le_attrs e) = Some (VBool false)).
Proof.
  destruct (App_workHandler_run exemplars r w)
    as (n & m & f & rs' & _ & _ & _ & _ & Hrun).
  do 4 eexists. split; [exact Hrun|].
  rewrite App_observations, App_log_entries.
  split; [reflexivity|].
  unfold App.outcome_entry, App.exemplar_entry.
  destruct exemplars, (float32_lt f float32_0_2); cbn [In le_level];
    (split; [split; [discriminate || reflexivity
                    |discriminate || reflexivity]|]);
    split.
  all: try (split; [intros (e & [<-|[<-|[]]] & Hl); discriminate Hl
                   |discriminate]).
  all: try (split; [reflexivity|]; intros _; eexists;
            split; [right; left; reflexivity|reflexivity]).
  all: intros e [<-|[<-|[]]] Hl; try discriminate Hl; reflexivity.
Qed.

(** X8.  A request that reaches the handler without a span in its
    context is not rejected: its entries carry the all-zero trace and
    span identifiers of the no-op span, and with exemplar support the
    all-zero trace identifier is attached as the exemplar. *)
Theorem untraced_request_gets_zero_identifiers (method : string)
    (w : World R C) :
  exists cs lvs v,
    runs (App.workHandler true (mkRequest method None)) w cs /\
    (forall e, In e (log_entries cs) ->
       Attr_get "trace_id" (le_attrs e) =
         Some (VString "00000000000000000000000000000000") /\
       Attr_get "span_id" (le_attrs e) =
         Some (VString "0000000000000000")) /\
    observations cs =
      [(lvs, v, Some [("traceID", "00000000000000000000000000000000")])].
Proof.
  destruct (App_workHandler_run true (mkRequest method None) w)
    as (n & m & f & rs' & _ & _ & _ & _ & Hrun).
  do 3 eexists. split; [exact Hrun|].
  rewrite App_observations, App_log_entries.
  split; [|reflexivity].
  unfold App.outcome_entry, App.exemplar_entry.
  destruct (float32_lt f float32_0_2);
    intros e [<-|[<-|[]]]; split; reflexivity.
Qed.


(** X10.  The plain handler emits no telemetry of its own: no span, no
    structured entry, no observation.  It sleeps first, then prints one
    line that reports the latency it slept for, and only then writes the
    response; the line starts with "SUCCESS" for status 200 and with
    "ERROR" for status 500. *)
Theorem plain_work_sleeps_prints_then_responds (r : Request)
    (w : World R C) :
  exists n f rs' cs fmt k,
    Plain.draws (w_rand w) n f rs' /\
    runs (Plain.workHandler r) w cs /\
    span_starts cs = [] /\ span_ends cs = [] /\
    log_entries cs = [] /\ observations cs = [] /\
    cs !! 0%nat = Some (CSleep (n * Millisecond)) /\
    cs !! 1%nat = Some (CPrintf fmt (n * Millisecond)) /\
    sleeps cs = [n * Millisecond] /\
    printed cs = [(fmt, n * Millisecond)] /\
    index_of is_response_write cs = Some k /\ (1 < k)%nat /\
    (fmt = ("SUCCESS: Request completed in %v" ++ LF)%string /\
     rs_status (Response_of cs) = StatusOK \/
     fmt = ("ERROR: Request failed after %v" ++ LF)%string /\
     rs_status (Response_of cs) = StatusInternalServerError).
Proof.
  destruct (Plain_workHandler_run r w)
    as (n & f & rs' & Hd & Hn & _ & Hrun).
  exists n, f, rs'.
  unfold Plain.work_calls in Hrun.
  rewrite Duration_mul_Millisecond in Hrun by lia.
  destruct (float32_lt f float32_0_2);
    do 3 eexists; (split; [exact Hd|]); (split; [exact Hrun|]);
    cbn; repeat (split; [reflexivity|]);
    (split; [lia|auto]).
Qed.

(** X11.  Every entry of a [/work] request carries a [trace_id] of 32
    and a [span_id] of 16 lower-case hexadecimal digits. *)
Theorem logged_identifiers_are_lower_hex (exemplars : bool)
    (r : Request) (w : World R C) :
  exists cs,
    runs (App.workHandler exemplars r) w cs /\
    forall e, In e (log_entries cs) ->
      exists t s,
        Attr_get "trace_id" (le_attrs e) = Some (VString t) /\
        Attr_get "span_id" (le_attrs e) = Some (VString s) /\
        String.length t = 32%nat /\ String.length s = 16%nat /\
        lower_hex t = true /\ lower_hex s = true.
Proof.
  destruct (App_workHandler_run exemplars r w)
    as (n & m & f & rs' & _ & _ & _ & _ & Hrun).
  eexists. split; [exact Hrun|].
  rewrite App_log_entries.
  unfold App.outcome_entry, App.exemplar_entry.
  intros e He.
  exists (TraceID_String (sc_TraceID (SpanFromContext (req_Context r)))),
         (SpanID_String (sc_SpanID (SpanFromContext (req_Context r)))).
  assert (Hattrs :
    Attr_get "trace_id" (le_attrs e) =
      Some (VString (TraceID_String
                       (sc_TraceID (SpanFromContext (req_Context r))))) /\
    Attr_get "span_id" (le_attrs e) =
      Some (VString (SpanID_String
                       (sc_SpanID (SpanFromContext (req_Context r)))))).
  { destruct exemplars, (float32_lt f float32_0_2);
      destruct He as [<-|[<-|[]]]; split; reflexivity. }
  destruct Hattrs as [Ht Hs].
  split; [exact Ht|]. split; [exact Hs|].
  split; [apply TraceID_String_length|].
  split.
  { unfold SpanID_String. rewrite hex_EncodeToString_length, sid_len.
    reflexivity. }
  split; apply hex_EncodeToString_lower.
Qed.

(** X12.  Printing a trace identifier loses nothing: two trace
    identifiers print alike only when they are the same, so the
    [trace_id] of an entry or an exemplar names one trace. *)
Theorem TraceID_String_injective (t1 t2 : TraceID) :
  TraceID_String t1 = TraceID_String t2 <-> t1 = t2.
Proof.
  split; [|intros ->; reflexivity].
  unfold TraceID_String. intros Heq.
  apply (f_equal hex_decode) in Heq.
  rewrite !hex_decode_encode in Heq.
  destruct t1 as [b1 l1], t2 as [b2 l2]. cbn in Heq. subst b2.
  f_equal. apply proof_irrel.
Qed.

(** X13.  A whole number of milliseconds survives the conversion to a
    [time.Duration] and back through [Milliseconds()] as long as the
    product does not overflow [int64], that is up to 9223372036854
    milliseconds either way. *)
Theorem Milliseconds_of_whole_milliseconds (n : Z) :
  -9223372036854 <= n <= 9223372036854 ->
  Milliseconds (Duration_mul n Millisecond) = n.
Proof.
  intros Hn. unfold Duration_mul. change Millisecond with 1000000.
  rewrite (int64_wrap_small n) by (unfold minInt64, maxInt64; lia).
  rewrite int64_wrap_small by (unfold minInt64, maxInt64; lia).
  unfold Milliseconds. apply Z.quot_mul. lia.
Qed.

Lemma Milliseconds_of_whole_milliseconds_witness :
  -9223372036854 <= 399 <= 9223372036854 /\
  Milliseconds (Duration_mul 399 Millisecond) = 399.
Proof.
  split; [lia|]. apply (Milliseconds_of_whole_milliseconds 399). lia.
Defined.

(** One millisecond more and the product wraps around. *)
Example Milliseconds_overflow :
  Milliseconds (Duration_mul 9223372036855 Millisecond)
  = -9223372036854.
Proof. reflexivity. Qed.

Lemma hist_samples_observe (lvs : list string) (s : Sample)
    (hs : Histograms) :
  hist_samples (hist_observe lvs s hs) lvs = hist_samples hs lvs ++ [s].
Proof.
  unfold hist_observe, hist_samples. rewrite lookup_insert_eq. reflexivity.
Qed.

(** X14.  With or without exemplar support, and whatever the outcome,
    one [/work] request adds exactly one sample to the histogram of its
    method and status: the earlier samples of that histogram are kept,
    in order, in front of the new one, and the histograms of all other
    label values are left as they were. *)
Theorem every_request_adds_one_sample (exemplars : bool) (r : Request)
    (w : World R C) :
  exists cs lvs v ex,
    runs (App.workHandler exemplars r) w cs /\
    observations cs = [(lvs, v, ex)] /\
    forall hs : Histograms,
      hist_samples (Histograms_after cs hs) lvs =
        hist_samples hs lvs ++ [(v, ex)] /\
      hist_count (Histograms_after cs hs) lvs = S (hist_count hs lvs) /\
      forall lvs', lvs' <> lvs ->
        hist_samples (Histograms_after cs hs) lvs' = hist_samples hs lvs'.
Proof.
  destruct (App_workHandler_run exemplars r w)
    as (n & m & f & rs' & _ & _ & _ & _ & Hrun).
  do 4 eexists. split; [exact Hrun|].
  rewrite App_observations. split; [reflexivity|].
  intros hs. rewrite App_Histograms_after.
  split; [apply hist_samples_observe|].
  split; [apply hist_count_observe|].
  intros lvs' Hne. unfold hist_observe, hist_samples.
  rewrite lookup_insert_ne by congruence. reflexivity.
Qed.

End HandlerFacts.
